(** * Submit-a-text: the sale workflow and the inbound webhook

    A shallow embedding of [src/main.py] and [src/db.py].

    Modelling boundary.  The Python statements of the two request handlers,
    of [normalize_phone] and of [send_sms_via_telnyx] are embedded statement
    by statement, with the exceptions Python raises on ill-typed values
    ([AttributeError] for [.get] on a non-dict, [TypeError] for [re.sub] on a
    non-string).  The collaborators that are not part of the repository are
    idealised:
    - the database driver turns each parameter into SQL text before
      anything is sent, and refuses what it cannot adapt ([adapt_error]: a
      dict, a string with a NUL character); the statement then raises and
      writes nothing.  A statement whose parameters are adapted is executed
      by the server ([db.py] commits each one on its own, so a write
      survives a later exception of the handler).  The driver's failure to
      encode a lone surrogate and the server's own type errors are not
      modelled: theorems that promise a write ask for [storable] values or
      for an observed effect of the write;
      tables are lists of rows in insertion order, [fetch_one] returns the
      first matching row, the [sales.id] sequence starts at 1;
      the server-assigned [created_on] column is never read by the two
      handlers and is left out (the admin pages pass it to their templates:
      their rows are modelled without it, and the listing, which is ordered
      by it, is an input);
    - the web framework hands the handler a parsed JSON value and takes the
      returned content as the response; a required form field that is
      missing or empty is answered 422 before the handler runs; the session
      is the dictionary the session middleware keeps for one client;
    - the provider's answer to the one HTTP POST is an input of the handler
      ([http_reply]): no response at all, or a response with its status and
      with what [response.json()] does on its body, return a value or raise
      (a [JSONDecodeError] of [requests], or an error that is not a
      [RequestException], such as [RecursionError]); [raise_for_status]
      raises for the status codes 400..599; writing to the console
      succeeds;
    - the Unicode character tables behind [\D], [str.strip] and [str.upper]
      are a parameter ([unicode_data]) fixed on ASCII. *)

From Stdlib Require Import ZArith NArith String Ascii Floats.PrimFloat Lia.
From stdpp Require Import base option list gmap.

Local Open Scope Z_scope.

(** ** Python strings and the character tables *)

(** A Python [str] is a sequence of code points. *)
Definition pystr : Type := list N.

(** An ASCII literal of the source as a [pystr]. *)
Definition str (s : string) : pystr := N_of_ascii <$> list_ascii_of_string s.

Definition ascii_decimal (c : N) : bool := ((48 <=? c) && (c <=? 57))%N.

Definition ascii_space (c : N) : bool :=
  (((9 <=? c) && (c <=? 13)) || ((28 <=? c) && (c <=? 32)))%N.

Definition ascii_upper (c : N) : N :=
  (if (97 <=? c) && (c <=? 122) then c - 32 else c)%N.

(** The tables of the interpreter's Unicode database that the code consults:
    [is_decimal] is the class [\d] of [re] on [str] patterns, [is_space] the
    characters [str.strip()] removes, [to_upper_full] the per-character
    mapping of [str.upper()] (one code point may map to several).  Only their
    restriction to ASCII is fixed. *)
Record unicode_data : Type := UnicodeData {
  is_decimal : N → bool;
  is_space : N → bool;
  to_upper_full : N → list N;
  is_decimal_ascii : ∀ c, (c < 128)%N → is_decimal c = ascii_decimal c;
  is_space_ascii : ∀ c, (c < 128)%N → is_space c = ascii_space c;
  to_upper_full_ascii : ∀ c, (c < 128)%N → to_upper_full c = [ascii_upper c]
}.

(** ** JSON values, as [json.loads] and [request.json()] produce them *)

#[warnings="-register-all"]
Inductive json : Type :=
  | JNull
  | JBool (b : bool)
  | JInt (n : Z)
  | JFloat (f : float)
  | JStr (s : pystr)
  | JArr (l : list json)
  | JObj (m : gmap pystr json).

(** Truth value of a Python object ([x or y], [if x]). *)
Definition py_truthy (v : json) : bool :=
  match v with
  | JNull => false
  | JBool b => b
  | JInt n => negb (n =? 0)
  | JFloat f => negb (PrimFloat.eqb f 0%float)
  | JStr s => negb (Nat.eqb (length s) 0)
  | JArr l => negb (Nat.eqb (length l) 0)
  | JObj m => negb (Nat.eqb (size m) 0)
  end.

(** [a or b] *)
Definition py_or (a b : json) : json := if py_truthy a then a else b.

(** A JSON object from its members. *)
Definition obj (members : list (string * json)) : json :=
  JObj (list_to_map (prod_map str Datatypes.id <$> members)).

Definition jstr (s : string) : json := JStr (str s).

(** ** Exceptions and results *)

Inductive requests_error : Type :=
  | ConnectionError
  | HTTPError (status_code : Z)
  | JSONDecodeError.

Inductive exn : Type :=
  | AttributeError
  | TypeError
  | RequestException (e : requests_error)
  | ProgrammingError   (* psycopg2: can't adapt type 'dict' *)
  | ValueError         (* psycopg2: a string literal cannot contain NUL *)
  | RecursionError.    (* the JSON decoder on a deeply nested document *)

(** [except requests.exceptions.RequestException] *)
Definition is_RequestException (e : exn) : bool :=
  match e with RequestException _ => true | _ => false end.

Inductive result (A : Type) : Type :=
  | Ok (a : A)
  | Raise (e : exn).
Arguments Ok {A} a.
Arguments Raise {A} e.

(** [v.get(k, default)]: only a dict has [get]. *)
Definition py_get (v : json) (k : pystr) (dflt : json) : result json :=
  match v with
  | JObj m => Ok (default dflt (m !! k))
  | _ => Raise AttributeError
  end.

(** ** The world: the three tables and the HTTP requests sent so far *)

Record sale : Type := Sale {
  id : Z;
  external_sale_id : json;
  phone : pystr;
  agent_name : json;
  office : json;
  source : json;
  health_id : json;
  plan_type : json;
  opted_out : bool
}.

Record outbound_message : Type := OutboundMessage {
  om_sale_id : Z;
  om_body : pystr;
  om_provider : pystr;
  om_provider_sid : json
}.

Record inbound_message : Type := InboundMessage {
  im_sale_id : option Z;
  im_from_phone : pystr;
  im_body : json
}.

Record world : Type := World {
  sales : list sale;
  outbound_messages : list outbound_message;
  inbound_messages : list inbound_message;
  next_sale_id : Z;
  http_posts : list json
}.

Definition empty_world : world := World [] [] [] 1 [].

(** ** The handler monad: state that survives an exception *)

Definition M (A : Type) : Type := world → world * result A.

Definition ret {A} (a : A) : M A := λ w, (w, Ok a).
Definition raise {A} (e : exn) : M A := λ w, (w, Raise e).
Definition bind {A B} (m : M A) (k : A → M B) : M B :=
  λ w, match m w with
       | (w', Ok a) => k a w'
       | (w', Raise e) => (w', Raise e)
       end.
Definition lift {A} (r : result A) : M A := λ w, (w, r).
Definition get_world : M world := λ w, (w, Ok w).
Definition modify (f : world → world) : M unit := λ w, (f w, Ok tt).

(** [try: m except <class>: h] *)
Definition try_except {A} (m : M A) (class : exn → bool) (h : exn → M A) : M A :=
  λ w, match m w with
       | (w', Raise e) => if class e then h e w' else (w', Raise e)
       | r => r
       end.

Notation "'let!' x ':=' m 'in' k" := (bind m (λ x, k))
  (at level 10, x name, m at level 100, k at level 200, only parsing).

(** ** db.py *)

Definition set_sales (f : list sale → list sale) (w : world) : world :=
  World (f (sales w)) (outbound_messages w) (inbound_messages w)
        (next_sale_id w) (http_posts w).

(** The statements the handlers issue, one constructor per SQL text. *)
Inductive statement : Type :=
  | UpdateSale (ext agent off src health plan : json) (sale_id : Z)
  | InsertOutboundMessage (sale_id : Z) (body provider : pystr) (provider_sid : json)
  | InsertInboundMessage (sale_id : option Z) (from_phone : pystr) (body : json)
  | OptOutByPhone (p : pystr).

(** [UPDATE sales SET ... WHERE id = %s] *)
Definition update_row (ext agent off src health plan : json) (sale_id : Z)
    (r : sale) : sale :=
  if id r =? sale_id
  then Sale (id r) ext (phone r) agent off src health plan (opted_out r)
  else r.

(** [UPDATE sales SET opted_out = TRUE WHERE phone = %s] *)
Definition opt_out_row (p : pystr) (r : sale) : sale :=
  if bool_decide (phone r = p)
  then Sale (id r) (external_sale_id r) (phone r) (agent_name r) (office r)
            (source r) (health_id r) (plan_type r) true
  else r.

Definition run_statement (q : statement) (w : world) : world :=
  match q with
  | UpdateSale ext agent off src health plan sale_id =>
      set_sales (fmap (update_row ext agent off src health plan sale_id)) w
  | InsertOutboundMessage sale_id body provider provider_sid =>
      World (sales w)
            (outbound_messages w ++ [OutboundMessage sale_id body provider provider_sid])
            (inbound_messages w) (next_sale_id w) (http_posts w)
  | InsertInboundMessage sale_id from_phone body =>
      World (sales w) (outbound_messages w)
            (inbound_messages w ++ [InboundMessage sale_id from_phone body])
            (next_sale_id w) (http_posts w)
  | OptOutByPhone p => set_sales (fmap (opt_out_row p)) w
  end.

(** The two lookups: [SELECT id, opted_out FROM sales WHERE phone = %s] and
    [SELECT id FROM sales WHERE phone = %s]. *)
Inductive select : Type :=
  | SaleIdOptedOutByPhone (p : pystr)
  | SaleIdByPhone (p : pystr).

(** The statement with a [RETURNING id] clause:
    [INSERT INTO sales (...) VALUES (...) RETURNING id]. *)
Inductive returning : Type :=
  | InsertSale (ext : json) (p : pystr) (agent off src health plan : json).

(** The first row of [sales] with that phone. *)
Definition find_sale (p : pystr) (w : world) : option sale :=
  List.find (λ r, bool_decide (phone r = p)) (sales w).

(** What psycopg2 does with one parameter of [cur.execute(query, params)]:
    [None], booleans, numbers and strings are adapted, a list is adapted
    element by element into an [ARRAY], a dict has no adapter
    ([ProgrammingError]), and a string with a NUL character cannot be
    quoted ([ValueError]). *)
Fixpoint adapt_error (v : json) : option exn :=
  match v with
  | JObj _ => Some ProgrammingError
  | JStr s => if existsb (N.eqb 0) s then Some ValueError else None
  | JArr l =>
      (fix elements (l : list json) : option exn :=
         match l with
         | [] => None
         | x :: l' =>
             match adapt_error x with
             | Some e => Some e
             | None => elements l'
             end
         end) l
  | JNull | JBool _ | JInt _ | JFloat _ => None
  end.

(** The parameters are adapted in order; the first refusal is raised. *)
Fixpoint mogrify_error (params : list json) : option exn :=
  match params with
  | [] => None
  | v :: params' =>
      match adapt_error v with
      | Some e => Some e
      | None => mogrify_error params'
      end
  end.

Definition sql_int (i : option Z) : json :=
  match i with Some n => JInt n | None => JNull end.

(** The parameter tuples, in the order of the placeholders. *)
Definition select_params (q : select) : list json :=
  match q with
  | SaleIdOptedOutByPhone p | SaleIdByPhone p => [JStr p]
  end.

Definition statement_params (q : statement) : list json :=
  match q with
  | UpdateSale ext agent off src health plan sale_id =>
      [ext; agent; off; src; health; plan; JInt sale_id]
  | InsertOutboundMessage sale_id body provider provider_sid =>
      [JInt sale_id; JStr body; JStr provider; provider_sid]
  | InsertInboundMessage sale_id from_phone body =>
      [sql_int sale_id; JStr from_phone; body]
  | OptOutByPhone p => [JStr p]
  end.

Definition returning_params (q : returning) : list json :=
  match q with
  | InsertSale ext p agent off src health plan =>
      [ext; JStr p; agent; off; src; health; plan]
  end.

(** [cur.execute(query, params or [])]: raise what the driver refuses, and
    touch nothing then. *)
Definition cur_execute (params : list json) : M unit :=
  match mogrify_error params with
  | Some e => raise e
  | None => ret tt
  end.

(** [fetch_one]: the row carries the selected columns; the handlers read
    no other. *)
Definition fetch_one (q : select) : M (option sale) :=
  let! _ := cur_execute (select_params q) in
  let! w := get_world in
  match q with
  | SaleIdOptedOutByPhone p | SaleIdByPhone p => ret (find_sale p w)
  end.

Definition execute (q : statement) : M unit :=
  let! _ := cur_execute (statement_params q) in
  modify (run_statement q).

(** [execute_returning]: the identifier comes from the table's sequence,
    [opted_out] takes its default. *)
Definition execute_returning (q : returning) : M Z :=
  let! _ := cur_execute (returning_params q) in
  λ w, match q with
       | InsertSale ext p agent off src health plan =>
           let i := next_sale_id w in
           (World (sales w ++ [Sale i ext p agent off src health plan false])
                  (outbound_messages w) (inbound_messages w) (i + 1)
                  (http_posts w),
            Ok i)
       end.

(** ** The provider's answer to an HTTP POST *)

Record response : Type := Response {
  status_code : Z;
  parsed_body : result json   (* what [response.json()] returns or raises *)
}.

Inductive http_reply : Type :=
  | NoResponse                   (* connection error, timeout, ... *)
  | Reply (r : response).

(** The request leaves the process. *)
Definition log_post (data : json) (w : world) : world :=
  World (sales w) (outbound_messages w) (inbound_messages w)
        (next_sale_id w) (http_posts w ++ [data]).

(** [requests.post(url, json=data, headers=headers)] *)
Definition requests_post (data : json) (reply : http_reply) : M response :=
  let! _ := modify (log_post data) in
  match reply with
  | NoResponse => raise (RequestException ConnectionError)
  | Reply r => ret r
  end.

(** [response.raise_for_status()]: an [HTTPError] for a client error (4xx)
    or a server error (5xx), nothing for any other status. *)
Definition raise_for_status (r : response) : M unit :=
  if (400 <=? status_code r) && (status_code r <? 600)
  then raise (RequestException (HTTPError (status_code r)))
  else ret tt.

(** [response.json()]: the parsed body, or what the decoder raises: on a
    body that is not JSON [requests.exceptions.JSONDecodeError], which is a
    [RequestException] (requests 2.27 and later); on a document nested too
    deep [RecursionError], which is not. *)
Definition response_json (r : response) : M json := lift (parsed_body r).

(** A body that is not JSON. *)
Definition not_json : result json := Raise (RequestException JSONDecodeError).

(** ** main.py *)

Section Main.
Context (U : unicode_data).
(** [TELNYX_FROM_NUMBER], [TELNYX_MESSAGING_PROFILE_ID]: [os.getenv]
    gives a string or [None]. *)
Context (TELNYX_FROM_NUMBER TELNYX_MESSAGING_PROFILE_ID : option pystr).

Definition getenv_value (v : option pystr) : json :=
  match v with Some s => JStr s | None => JNull end.

(** [re.sub(r"\D", "", x)] *)
Definition re_sub_nondigits (x : json) : result pystr :=
  match x with
  | JStr s => Ok (List.filter (λ c, is_decimal U c) s)
  | _ => Raise TypeError
  end.

Definition startswith (s prefix : pystr) : bool :=
  bool_decide (take (length prefix) s = prefix).

Definition normalize_phone (raw : json) : result pystr :=
  match re_sub_nondigits (py_or raw (JStr (str ""))) with
  | Raise e => Raise e
  | Ok digits =>
      if Nat.eqb (length digits) 10 then Ok (str "+1" ++ digits)
      else if Nat.eqb (length digits) 11 && startswith digits (str "1")
           then Ok (str "+" ++ digits)
      else Ok (str "+" ++ digits)
  end.

Definition failed_response : json :=
  JObj {[ str "data" := JObj {[ str "id" := JStr (str "FAILED") ]} ]}.

Definition send_sms_via_telnyx (to_number message : pystr)
    (reply : http_reply) : M json :=
  let data := JObj (list_to_map
    [ (str "from", getenv_value TELNYX_FROM_NUMBER);
      (str "to", JStr to_number);
      (str "text", JStr message);
      (str "messaging_profile_id", getenv_value TELNYX_MESSAGING_PROFILE_ID);
      (str "type", JStr (str "SMS"));
      (str "use_profile_webhooks", JBool true) ]) in
  try_except
    (let! response := requests_post data reply in
     let! _ := raise_for_status response in
     response_json response)
    is_RequestException
    (λ _, ret failed_response).

Definition text_msg : pystr :=
  str "Thank you for enrolling! We're here to help with your coverage. Reply STOP to opt out.".

Definition skipped_response : json :=
  JObj (list_to_map
    [ (str "ok", JBool true);
      (str "skipped_send", JBool true);
      (str "reason", JStr (str "opted_out")) ]).

Definition sent_response (sale_id : Z) (clean_phone : pystr)
    (provider_sid : json) : json :=
  JObj (list_to_map
    [ (str "ok", JBool true);
      (str "sale_id", JInt sale_id);
      (str "sent_to", JStr clean_phone);
      (str "provider_sid", provider_sid);
      (str "skipped_send", JBool false) ]).

(** [existing and existing["opted_out"]] *)
Definition is_opted_out (existing : option sale) : bool :=
  match existing with Some row => opted_out row | None => false end.

Definition new_sale (body : json) (reply : http_reply) : M json :=
  let! raw_phone := lift (py_get body (str "phone") JNull) in
  let! clean_phone := lift (normalize_phone raw_phone) in
  let! existing := fetch_one (SaleIdOptedOutByPhone clean_phone) in
  if is_opted_out existing then ret skipped_response
  else
    let! sale_id :=
      match existing with
      | Some row =>
          let sale_id := id row in
          let! ext := lift (py_get body (str "saleId") JNull) in
          let! agent := lift (py_get body (str "agent") JNull) in
          let! off := lift (py_get body (str "office") JNull) in
          let! src := lift (py_get body (str "source") JNull) in
          let! health := lift (py_get body (str "healthId") JNull) in
          let! plan := lift (py_get body (str "planType") JNull) in
          let! _ := execute (UpdateSale ext agent off src health plan sale_id) in
          ret sale_id
      | None =>
          let! ext := lift (py_get body (str "saleId") JNull) in
          let! agent := lift (py_get body (str "agent") JNull) in
          let! off := lift (py_get body (str "office") JNull) in
          let! src := lift (py_get body (str "source") JNull) in
          let! health := lift (py_get body (str "healthId") JNull) in
          let! plan := lift (py_get body (str "planType") JNull) in
          execute_returning (InsertSale ext clean_phone agent off src health plan)
      end in
    let! outbound_resp := send_sms_via_telnyx clean_phone text_msg reply in
    let! data := lift (py_get outbound_resp (str "data") (JObj ∅)) in
    let! provider_sid := lift (py_get data (str "id") (JStr (str "FAILED"))) in
    let! _ := execute (InsertOutboundMessage sale_id text_msg (str "telnyx") provider_sid) in
    ret (sent_response sale_id clean_phone provider_sid).

(** [s.lstrip()] *)
Fixpoint py_lstrip (s : pystr) : pystr :=
  match s with
  | c :: s' => if is_space U c then py_lstrip s' else s
  | [] => []
  end.

(** [s.strip()]: whitespace is removed at both ends. *)
Definition py_strip (s : pystr) : pystr :=
  reverse (py_lstrip (reverse (py_lstrip s))).

(** [s.upper()] *)
Definition py_upper (s : pystr) : pystr := s ≫= to_upper_full U.

(** [body.strip().upper() == "STOP"]: only a [str] has [strip]. *)
Definition is_stop (body : json) : result bool :=
  match body with
  | JStr s => Ok (bool_decide (py_upper (py_strip s) = str "STOP"))
  | _ => Raise AttributeError
  end.

Definition ok_response : json := JObj {[ str "ok" := JBool true ]}.

Definition inbound_sms (payload : json) : M json :=
  let! d := lift (py_get payload (str "data") (JObj ∅)) in
  let! data := lift (py_get d (str "payload") (JObj ∅)) in
  let! from := lift (py_get data (str "from") (JObj ∅)) in
  let! from_phone := lift (py_get from (str "phone_number") JNull) in
  let! body := lift (py_get data (str "text") (JStr (str ""))) in
  let! clean_from := lift (normalize_phone from_phone) in
  let! sale_row := fetch_one (SaleIdByPhone clean_from) in
  let sale_id := id <$> sale_row in
  let! _ := execute (InsertInboundMessage sale_id clean_from body) in
  let! stop := lift (is_stop body) in
  let! _ := (if stop : bool then execute (OptOutByPhone clean_from) else ret tt) in
  ret ok_response.

(** ** Sequential execution of requests *)

Inductive request : Type :=
  | NewSale (body : json) (reply : http_reply)
  | InboundSms (payload : json).

Definition handle (rq : request) : M json :=
  match rq with
  | NewSale body reply => new_sale body reply
  | InboundSms payload => inbound_sms payload
  end.

(** The world after a request, whether the handler returned or raised. *)
Definition exec (rq : request) (w : world) : world := (handle rq w).1.

Definition run (rqs : list request) (w : world) : world :=
  foldl (λ w rq, exec rq w) w rqs.


(** * Properties *)

(** ** What a request carries *)

Definition rbind {A B} (r : result A) (k : A → result B) : result B :=
  match r with Ok a => k a | Raise e => Raise e end.

(** The value of [body.get(k)] in a handler that got past its first [.get]. *)
Definition field (body : json) (k : string) : json :=
  match body with JObj m => default JNull (m !! str k) | _ => JNull end.


(** What [send_sms_via_telnyx] hands back, or lets through. *)
Definition gateway_result (reply : http_reply) : result json :=
  match reply with
  | NoResponse => Ok failed_response
  | Reply r =>
      if (400 <=? status_code r) && (status_code r <? 600)
      then Ok failed_response
      else match parsed_body r with
           | Ok v => Ok v
           | Raise e =>
               if is_RequestException e then Ok failed_response else Raise e
           end
  end.

(** [normalize_phone(body.get("phone"))], lines 139-140. *)
Definition request_phone (body : json) : result pystr :=
  rbind (py_get body (str "phone") JNull) normalize_phone.

(** The JSON document posted to the provider. *)
Definition sms_data (to_number message : pystr) : json :=
  JObj (list_to_map
    [ (str "from", getenv_value TELNYX_FROM_NUMBER);
      (str "to", JStr to_number);
      (str "text", JStr message);
      (str "messaging_profile_id", getenv_value TELNYX_MESSAGING_PROFILE_ID);
      (str "type", JStr (str "SMS"));
      (str "use_profile_webhooks", JBool true) ]).

(** ** The phone normalizer *)

(** The algorithm in the words of the specification. *)
Definition strip_non_digits (s : pystr) : pystr :=
  List.filter (λ c, is_decimal U c) s.

Definition normalize_spec (s : pystr) : pystr :=
  let digits := strip_non_digits s in
  if decide (length digits = 10%nat) then str "+1" ++ digits
  else if decide (length digits = 11%nat ∧ head digits = Some 49%N)
       then str "+" ++ digits
  else str "+" ++ digits.

Lemma normalize_phone_str s :
  normalize_phone (JStr s) = Ok (normalize_spec s).
Proof.
  assert (py_or (JStr s) (JStr (str "")) = JStr s) as Hor by by destruct s.
  unfold normalize_phone. rewrite Hor. simpl.
  unfold normalize_spec, strip_non_digits.
  set (digits := List.filter _ s).
  destruct (Nat.eqb_spec (length digits) 10); case_decide; try done.
  destruct (_ && _); by case_decide.
Qed.

Lemma strip_non_digits_ascii s :
  Forall (λ c, (c < 128)%N) s →
  strip_non_digits s = List.filter ascii_decimal s.
Proof.
  unfold strip_non_digits. induction 1 as [|c s Hc _ IH]; simpl; [done|].
  by rewrite IH, (is_decimal_ascii U c Hc).
Qed.

Lemma normalize_spec_plus s : ∃ rest, normalize_spec s = 43%N :: rest.
Proof.
  unfold normalize_spec. repeat case_decide; simpl; eauto.
Qed.

Ltac ascii_literal := vm_compute; repeat constructor.

(** C2: on a string or [None], [normalize_phone] never fails and returns what
    the specification's algorithm computes from the digits of the input
    ([None] counts as the empty string); the four sample values hold and the
    result always starts with ["+"]. *)
Theorem C2_normalize_phone :
  (∀ s, normalize_phone (JStr s) = Ok (normalize_spec s))
  ∧ normalize_phone JNull = Ok (normalize_spec (str ""))
  ∧ normalize_phone (JStr (str "555-123-4567")) = Ok (str "+15551234567")
  ∧ normalize_phone (JStr (str "15551234567")) = Ok (str "+15551234567")
  ∧ normalize_phone (JStr (str "")) = Ok (str "+")
  ∧ normalize_phone JNull = Ok (str "+")
  ∧ (∀ s, ∃ rest, normalize_spec s = str "+" ++ rest).
Proof.
  split_and!.
  - apply normalize_phone_str.
  - reflexivity.
  - rewrite normalize_phone_str. unfold normalize_spec.
    rewrite strip_non_digits_ascii by ascii_literal. reflexivity.
  - rewrite normalize_phone_str. unfold normalize_spec.
    rewrite strip_non_digits_ascii by ascii_literal. reflexivity.
  - reflexivity.
  - reflexivity.
  - apply normalize_spec_plus.
Qed.

Definition is_str (v : json) : bool :=
  match v with JStr _ => true | _ => false end.

Lemma normalize_phone_falsy v :
  py_truthy v = false → normalize_phone v = Ok (str "+").
Proof. intros H. unfold normalize_phone, py_or. by rewrite H. Qed.

Lemma normalize_phone_readable v :
  negb (py_truthy v) || is_str v = true → ∃ p, normalize_phone v = Ok p.
Proof.
  destruct (py_truthy v) eqn:Ht; simpl.
  - destruct v; try done. intros _. rewrite normalize_phone_str. eauto.
  - intros _. rewrite normalize_phone_falsy by done. eauto.
Qed.

Lemma normalize_phone_raises raw e :
  normalize_phone raw = Raise e → e = TypeError.
Proof.
  intros He. destruct (py_truthy raw) eqn:Ht.
  - destruct raw; try (unfold normalize_phone, py_or in He; rewrite Ht in He;
      simpl in He; by simplify_eq).
    by rewrite normalize_phone_str in He.
  - by rewrite normalize_phone_falsy in He.
Qed.

Lemma plus_not_decimal : is_decimal U 43 = false.
Proof. by rewrite (is_decimal_ascii U 43). Qed.

Lemma one_is_decimal : is_decimal U 49 = true.
Proof. by rewrite (is_decimal_ascii U 49). Qed.

Lemma strip_non_digits_all s :
  Forall (λ c, is_decimal U c = true) (strip_non_digits s).
Proof.
  unfold strip_non_digits. induction s as [|c s IH]; simpl; [constructor|].
  destruct (is_decimal U c) eqn:Hc; [by constructor|done].
Qed.

Lemma strip_decimals ds :
  Forall (λ c, is_decimal U c = true) ds → strip_non_digits ds = ds.
Proof.
  unfold strip_non_digits. induction 1 as [|c ds Hc _ IH]; simpl; [done|].
  by rewrite Hc, IH.
Qed.

Lemma strip_plus ds : strip_non_digits (43%N :: ds) = strip_non_digits ds.
Proof. unfold strip_non_digits. simpl. by rewrite plus_not_decimal. Qed.

Lemma strip_one ds : strip_non_digits (49%N :: ds) = 49%N :: strip_non_digits ds.
Proof. unfold strip_non_digits. simpl. by rewrite one_is_decimal. Qed.

(** The canonical phone in terms of the digits kept. *)
Lemma normalize_spec_cases s :
  let ds := strip_non_digits s in
  normalize_spec s
  = if decide (length ds = 10%nat) then 43%N :: 49%N :: ds else 43%N :: ds.
Proof. unfold normalize_spec. simpl. by repeat case_decide. Qed.

Lemma normalize_spec_canonical s :
  normalize_spec (normalize_spec s) = normalize_spec s.
Proof.
  rewrite (normalize_spec_cases (normalize_spec s)). simpl.
  rewrite (normalize_spec_cases s). simpl.
  pose proof (strip_non_digits_all s) as Hall.
  destruct (decide (length (strip_non_digits s) = 10%nat)) as [Hlen|Hlen].
  - rewrite strip_plus, strip_one, (strip_decimals _ Hall).
    rewrite decide_False by (simpl; lia). done.
  - rewrite strip_plus, (strip_decimals _ Hall). by rewrite decide_False.
Qed.

(** ** The database driver *)

(** Values every column takes from the driver: null, a boolean, a number, or
    a string without a NUL character and without a lone surrogate (which the
    connection's UTF-8 encoding cannot carry). *)
Definition is_surrogate (c : N) : bool := ((55296 <=? c) && (c <=? 57343))%N.

Definition storable_text (s : pystr) : bool :=
  forallb (λ c, negb (N.eqb 0 c) && negb (is_surrogate c)) s.

Definition storable (v : json) : bool :=
  match v with
  | JStr s => storable_text s
  | JArr _ | JObj _ => false
  | JNull | JBool _ | JInt _ | JFloat _ => true
  end.

Lemma storable_text_no_nul s :
  storable_text s = true → existsb (N.eqb 0) s = false.
Proof.
  unfold storable_text. induction s as [|c s IH]; simpl; [done|].
  intros [[Hc _]%andb_true_iff Hs]%andb_true_iff.
  apply negb_true_iff in Hc. rewrite Hc. by apply IH.
Qed.

Lemma storable_adapts v : storable v = true → adapt_error v = None.
Proof.
  destruct v; simpl; try done. intros Hs.
  by rewrite storable_text_no_nul.
Qed.

Lemma mogrify_skip l1 v l2 :
  adapt_error v = None →
  mogrify_error (l1 ++ v :: l2) = mogrify_error (l1 ++ l2).
Proof.
  intros Hv. induction l1 as [|x l1 IH]; simpl; [by rewrite Hv|].
  by rewrite IH.
Qed.

Lemma mogrify_all l :
  Forall (λ v, adapt_error v = None) l → mogrify_error l = None.
Proof. induction 1 as [|v l Hv _ IH]; simpl; [done|]. by rewrite Hv. Qed.

(** A canonical phone has no NUL character: the driver takes it. *)
Lemma no_nul_decimals ds :
  Forall (λ c, is_decimal U c = true) ds → existsb (N.eqb 0) ds = false.
Proof.
  induction 1 as [|c ds Hc _ IH]; [done|]. cbn [existsb].
  rewrite IH, orb_false_r. apply N.eqb_neq. intros <-.
  rewrite (is_decimal_ascii U 0) in Hc; done.
Qed.

Lemma normalize_phone_adapts raw p :
  normalize_phone raw = Ok p → adapt_error (JStr p) = None.
Proof.
  intros Hp.
  assert (∃ s, normalize_phone (JStr s) = Ok p) as [s Hs].
  { destruct (py_truthy raw) eqn:Ht.
    - destruct raw; try (unfold normalize_phone, py_or in Hp; rewrite Ht in Hp;
        simpl in Hp; by simplify_eq). eauto.
    - rewrite normalize_phone_falsy in Hp by done. exists []. by simplify_eq. }
  rewrite normalize_phone_str, normalize_spec_cases in Hs. simpl in Hs.
  pose proof (no_nul_decimals _ (strip_non_digits_all s)) as Hd.
  case_decide; simplify_eq; simpl; by rewrite Hd.
Qed.

(** What the driver says to the six fields of a submission. *)
Definition fields_error (body : json) : option exn :=
  mogrify_error [field body "saleId"; field body "agent"; field body "office";
                 field body "source"; field body "healthId";
                 field body "planType"].

(** *** The gateway client *)

Lemma send_sms_via_telnyx_spec to_number message reply w :
  send_sms_via_telnyx to_number message reply w
  = (log_post (sms_data to_number message) w, gateway_result reply).
Proof.
  unfold send_sms_via_telnyx, try_except, requests_post, bind, modify.
  destruct reply as [|[st body]]; simpl; [done|].
  unfold raise_for_status, response_json, lift; simpl.
  destruct ((400 <=? st) && (st <? 600)); simpl; [done|].
  destruct body as [v|e]; [done|]. by destruct (is_RequestException e).
Qed.


(** *** The send step of [new_sale], lines 200-223 *)

Definition send_step (sale_id : Z) (clean_phone : pystr) (reply : http_reply)
    : M json :=
  let! outbound_resp := send_sms_via_telnyx clean_phone text_msg reply in
  let! data := lift (py_get outbound_resp (str "data") (JObj ∅)) in
  let! provider_sid := lift (py_get data (str "id") (JStr (str "FAILED"))) in
  let! _ := execute (InsertOutboundMessage sale_id text_msg (str "telnyx") provider_sid) in
  ret (sent_response sale_id clean_phone provider_sid).

(** [outbound_resp.get("data", {}).get("id", "FAILED")] *)
Definition provider_sid_of (outbound_resp : json) : result json :=
  rbind (py_get outbound_resp (str "data") (JObj ∅))
        (λ data, py_get data (str "id") (JStr (str "FAILED"))).

(** The identifier that gets recorded: read from the answer, then taken or
    refused by the driver as the last parameter of the INSERT. *)
Definition recorded_sid (reply : http_reply) : result json :=
  rbind (rbind (gateway_result reply) provider_sid_of) (λ sid,
    match adapt_error sid with
    | Some e => Raise e
    | None => Ok sid
    end).

Lemma outbound_params_error sale_id sid :
  mogrify_error
    (statement_params
       (InsertOutboundMessage sale_id text_msg (str "telnyx") sid))
  = adapt_error sid.
Proof.
  change (statement_params _)
    with ([JInt sale_id; JStr text_msg; JStr (str "telnyx")] ++ [sid]).
  cbn. by destruct (adapt_error sid).
Qed.

Lemma send_step_spec sale_id p reply w :
  send_step sale_id p reply w
  = let w1 := log_post (sms_data p text_msg) w in
    match recorded_sid reply with
    | Ok sid =>
        (run_statement (InsertOutboundMessage sale_id text_msg (str "telnyx") sid) w1,
         Ok (sent_response sale_id p sid))
    | Raise e => (w1, Raise e)
    end.
Proof.
  unfold send_step, bind. rewrite send_sms_via_telnyx_spec.
  unfold recorded_sid, provider_sid_of, rbind, lift.
  destruct (gateway_result reply) as [v|e]; [|done].
  destruct (py_get v _ _) as [d|e]; [|done].
  destruct (py_get d _ _) as [sid|e]; [|done].
  unfold execute, cur_execute, bind. rewrite outbound_params_error.
  by destruct (adapt_error sid).
Qed.

Lemma provider_sid_of_failed :
  provider_sid_of failed_response = Ok (JStr (str "FAILED")).
Proof. reflexivity. Qed.

(** *** [new_sale] by cases on the lookup *)

Definition updated_from (body : json) (sale_id : Z) : statement :=
  UpdateSale (field body "saleId") (field body "agent") (field body "office")
             (field body "source") (field body "healthId")
             (field body "planType") sale_id.

Definition inserted_from (body : json) (p : pystr) (w : world) : world :=
  World (sales w ++ [Sale (next_sale_id w) (field body "saleId") p
                          (field body "agent") (field body "office")
                          (field body "source") (field body "healthId")
                          (field body "planType") false])
        (outbound_messages w) (inbound_messages w) (next_sale_id w + 1)
        (http_posts w).

Lemma request_phone_dict body p :
  request_phone body = Ok p → ∃ m, body = JObj m.
Proof. destruct body; try done. eauto. Qed.

Lemma new_sale_raises body reply e w :
  request_phone body = Raise e → new_sale body reply w = (w, Raise e).
Proof.
  intros H. unfold request_phone, rbind in H.
  unfold new_sale, bind, lift.
  destruct (py_get body _ _) as [raw|e']; [|congruence].
  by rewrite H.
Qed.

Lemma fetch_one_phone (q : select) raw p w :
  normalize_phone raw = Ok p →
  select_params q = [JStr p] →
  fetch_one q w = (w, Ok (find_sale p w)).
Proof.
  intros Hp Hq. unfold fetch_one, cur_execute, bind. rewrite Hq.
  rewrite mogrify_all
    by (constructor; [by eapply normalize_phone_adapts|constructor]).
  by destruct q; simplify_eq/=.
Qed.

Lemma update_params_error body i :
  mogrify_error (statement_params (updated_from body i)) = fields_error body.
Proof.
  unfold fields_error, updated_from, statement_params.
  match goal with
  | |- mogrify_error [?a; ?b; ?c; ?d; ?e; ?g; ?h] = _ =>
      change [a; b; c; d; e; g; h] with ([a; b; c; d; e; g] ++ [h])
  end.
  by rewrite mogrify_skip, app_nil_r.
Qed.

Lemma insert_params_error body raw p :
  normalize_phone raw = Ok p →
  mogrify_error
    (returning_params
       (InsertSale (field body "saleId") p (field body "agent")
          (field body "office") (field body "source")
          (field body "healthId") (field body "planType")))
  = fields_error body.
Proof.
  intros Hp. unfold fields_error, returning_params.
  match goal with
  | |- mogrify_error [?a; ?x; ?b; ?c; ?d; ?e; ?g] = _ =>
      change [a; x; b; c; d; e; g] with ([a] ++ x :: [b; c; d; e; g])
  end.
  by rewrite mogrify_skip by by eapply normalize_phone_adapts.
Qed.

Lemma new_sale_spec body reply w p :
  request_phone body = Ok p →
  new_sale body reply w =
    match find_sale p w with
    | Some row =>
        if opted_out row then (w, Ok skipped_response)
        else match fields_error body with
             | Some e => (w, Raise e)
             | None => send_step (id row) p reply
                         (run_statement (updated_from body (id row)) w)
             end
    | None =>
        match fields_error body with
        | Some e => (w, Raise e)
        | None => send_step (next_sale_id w) p reply (inserted_from body p w)
        end
    end.
Proof.
  intros H. destruct (request_phone_dict _ _ H) as [m ->].
  unfold request_phone, rbind in H. simpl in H.
  pose proof (update_params_error (JObj m)) as Hu.
  pose proof (insert_params_error (JObj m) _ _ H) as Hi.
  unfold new_sale, bind, lift. simpl. rewrite H.
  rewrite (fetch_one_phone _ _ _ _ H) by done.
  destruct (find_sale p w) as [row|]; simpl.
  - destruct (opted_out row); [done|].
    unfold execute, cur_execute, bind. specialize (Hu (id row)).
    unfold updated_from, field in Hu. rewrite Hu.
    by destruct (fields_error (JObj m)).
  - unfold execute_returning, cur_execute, bind.
    unfold field in Hi. rewrite Hi.
    by destruct (fields_error (JObj m)).
Qed.

(** *** [inbound_sms] by cases *)

(** The normalized sender and the text, lines 236-241. *)
Definition inbound_request (payload : json) : result (pystr * json) :=
  rbind (py_get payload (str "data") (JObj ∅)) (λ d,
  rbind (py_get d (str "payload") (JObj ∅)) (λ data,
  rbind (py_get data (str "from") (JObj ∅)) (λ from,
  rbind (py_get from (str "phone_number") JNull) (λ from_phone,
  rbind (py_get data (str "text") (JStr (str ""))) (λ body,
  rbind (normalize_phone from_phone) (λ clean_from,
  Ok (clean_from, body))))))).

Definition inbound_logged (p : pystr) (body : json) (w : world) : world :=
  run_statement (InsertInboundMessage (id <$> find_sale p w) p body) w.

Lemma inbound_request_adapts payload p body :
  inbound_request payload = Ok (p, body) → adapt_error (JStr p) = None.
Proof.
  unfold inbound_request, rbind. intros H.
  repeat match type of H with
  | match ?r with _ => _ end = _ => destruct r eqn:?; [|done]
  end.
  simplify_eq. by eapply normalize_phone_adapts.
Qed.

Lemma inbound_params_error i p body :
  adapt_error (JStr p) = None →
  mogrify_error (statement_params (InsertInboundMessage i p body))
  = adapt_error body.
Proof.
  intros Hp. unfold statement_params.
  change [sql_int i; JStr p; body] with ([sql_int i] ++ JStr p :: [body]).
  rewrite mogrify_skip by done. simpl.
  destruct i; simpl; by destruct (adapt_error body).
Qed.

Lemma inbound_sms_spec payload w :
  inbound_sms payload w =
    match inbound_request payload with
    | Raise e => (w, Raise e)
    | Ok (p, body) =>
        match adapt_error body with
        | Some e => (w, Raise e)
        | None =>
            let w1 := inbound_logged p body w in
            match is_stop body with
            | Raise e => (w1, Raise e)
            | Ok true => (run_statement (OptOutByPhone p) w1, Ok ok_response)
            | Ok false => (w1, Ok ok_response)
            end
        end
    end.
Proof.
  destruct (inbound_request payload) as [[p body]|e] eqn:Hreq.
  - pose proof (inbound_request_adapts _ _ _ Hreq) as Hp.
    unfold inbound_request, rbind in Hreq.
    unfold inbound_sms, bind, lift.
    destruct (py_get payload _ _) as [d|]; [|done].
    destruct (py_get d _ _) as [data|]; [|done].
    destruct (py_get data (str "from") _) as [from|]; [|done].
    destruct (py_get from _ _) as [from_phone|]; [|done].
    destruct (py_get data (str "text") _) as [body'|]; [|done].
    destruct (normalize_phone from_phone) as [p'|] eqn:Hn; [|done].
    simplify_eq. rewrite (fetch_one_phone _ _ _ _ Hn) by done.
    unfold execute, cur_execute, bind.
    rewrite inbound_params_error by done.
    rewrite (mogrify_all (statement_params (OptOutByPhone p)))
      by (constructor; [done|constructor]).
    destruct (adapt_error body); [done|]. simpl. unfold inbound_logged.
    by destruct (is_stop body) as [[]|].
  - unfold inbound_request, rbind in Hreq.
    unfold inbound_sms, bind, lift.
    destruct (py_get payload _ _) as [d|]; [|by simplify_eq].
    destruct (py_get d _ _) as [data|]; [|by simplify_eq].
    destruct (py_get data (str "from") _) as [from|]; [|by simplify_eq].
    destruct (py_get from _ _) as [from_phone|]; [|by simplify_eq].
    destruct (py_get data (str "text") _) as [body'|]; [|by simplify_eq].
    destruct (normalize_phone from_phone) as [p'|]; by simplify_eq.
Qed.

(** ** The tables as a transition system *)

(** Every request moves the tables by one of four steps. *)
Inductive db_step (w w' : world) : Prop :=
  | step_frame :
      sales w' = sales w →
      next_sale_id w' = next_sale_id w →
      outbound_messages w' = outbound_messages w →
      db_step w w'
  | step_update row ext agent off src health plan extra :
      find_sale (phone row) w = Some row →
      opted_out row = false →
      sales w' = update_row ext agent off src health plan (id row) <$> sales w →
      next_sale_id w' = next_sale_id w →
      outbound_messages w' = outbound_messages w ++ extra →
      Forall (λ m, om_sale_id m = id row) extra →
      db_step w w'
  | step_insert row extra :
      find_sale (phone row) w = None →
      id row = next_sale_id w →
      sales w' = sales w ++ [row] →
      next_sale_id w' = next_sale_id w + 1 →
      outbound_messages w' = outbound_messages w ++ extra →
      Forall (λ m, om_sale_id m = id row) extra →
      db_step w w'
  | step_opt_out p :
      sales w' = opt_out_row p <$> sales w →
      next_sale_id w' = next_sale_id w →
      outbound_messages w' = outbound_messages w →
      db_step w w'.

Lemma find_sale_Some p w row :
  find_sale p w = Some row → row ∈ sales w ∧ phone row = p.
Proof.
  unfold find_sale. intros H. apply find_some in H as [Hin Hp].
  split; [by apply list_elem_of_In | by apply bool_decide_eq_true in Hp].
Qed.

Lemma find_sale_None p w :
  find_sale p w = None → p ∉ phone <$> sales w.
Proof.
  unfold find_sale. intros H [row [-> Hin]]%list_elem_of_fmap.
  apply list_elem_of_In in Hin.
  pose proof (find_none _ _ H _ Hin) as Hf. simpl in Hf.
  by apply bool_decide_eq_false in Hf.
Qed.

Lemma send_step_tables sale_id p reply w :
  let w' := (send_step sale_id p reply w).1 in
  sales w' = sales w ∧ next_sale_id w' = next_sale_id w
  ∧ inbound_messages w' = inbound_messages w
  ∧ ∃ extra, outbound_messages w' = outbound_messages w ++ extra
             ∧ Forall (λ m, om_sale_id m = sale_id) extra.
Proof.
  rewrite send_step_spec.
  destruct (recorded_sid reply) as [sid|e]; simpl.
  - repeat split. eexists [_]. split; [done|]. by constructor.
  - repeat split. exists []. by rewrite app_nil_r.
Qed.

Lemma handle_step rq w : db_step w (exec rq w).
Proof.
  destruct rq as [body reply|payload]; unfold exec; simpl.
  - destruct (request_phone body) as [p|e] eqn:Hp.
    + rewrite (new_sale_spec _ _ _ _ Hp).
      destruct (find_sale p w) as [row|] eqn:Hf.
      * destruct (opted_out row) eqn:Ho; [by apply step_frame|].
        destruct (fields_error body); [by apply step_frame|].
        destruct (send_step_tables (id row) p reply
                    (run_statement (updated_from body (id row)) w))
          as (Hs & Hn & _ & extra & Hout & Hall).
        apply find_sale_Some in Hf as Hrow. destruct Hrow as [_ <-].
        simpl in *. eapply step_update; eauto.
      * destruct (fields_error body); [by apply step_frame|].
        destruct (send_step_tables (next_sale_id w) p reply (inserted_from body p w))
          as (Hs & Hn & _ & extra & Hout & Hall).
        simpl in *.
        eapply (step_insert _ _ (Sale (next_sale_id w) _ p _ _ _ _ _ false));
          simpl; eauto.
    + rewrite (new_sale_raises _ _ _ _ Hp). by apply step_frame.
  - rewrite inbound_sms_spec.
    destruct (inbound_request payload) as [[p body]|e]; [|by apply step_frame].
    destruct (adapt_error body); [by apply step_frame|].
    destruct (is_stop body) as [[]|]; simpl; try by apply step_frame.
    by apply (step_opt_out _ _ p).
Qed.

(** ** The invariant of the [sales] table *)

(** Identifiers are distinct and below the sequence, phones are distinct. *)
Record wf (w : world) : Prop := WF {
  wf_ids : NoDup (id <$> sales w);
  wf_phones : NoDup (phone <$> sales w);
  wf_next : Forall (λ r, id r < next_sale_id w) (sales w)
}.

Lemma wf_empty : wf empty_world.
Proof. split; simpl; constructor. Qed.

Lemma NoDup_fmap_eq {A B} (f : A → B) (l : list A) x y :
  NoDup (f <$> l) → x ∈ l → y ∈ l → f x = f y → x = y.
Proof.
  induction l as [|a l IH]; simpl; intros Hnd Hx Hy Hf.
  - by apply elem_of_nil in Hx.
  - apply NoDup_cons in Hnd as [Ha Hnd].
    apply elem_of_cons in Hx as [->|Hx]; apply elem_of_cons in Hy as [->|Hy];
      try done.
    + destruct Ha. rewrite Hf. by apply list_elem_of_fmap_2.
    + destruct Ha. rewrite <- Hf. by apply list_elem_of_fmap_2.
    + by apply IH.
Qed.

Lemma update_row_id ext agent off src health plan i r :
  id (update_row ext agent off src health plan i r) = id r.
Proof. unfold update_row. by destruct (id r =? i). Qed.

Lemma update_row_phone ext agent off src health plan i r :
  phone (update_row ext agent off src health plan i r) = phone r.
Proof. unfold update_row. by destruct (id r =? i). Qed.

Lemma update_row_other ext agent off src health plan i r :
  id r ≠ i → update_row ext agent off src health plan i r = r.
Proof. unfold update_row. intros H. destruct (Z.eqb_spec (id r) i); done. Qed.

Lemma opt_out_row_id p r : id (opt_out_row p r) = id r.
Proof. unfold opt_out_row. by destruct (bool_decide _). Qed.

Lemma opt_out_row_phone p r : phone (opt_out_row p r) = phone r.
Proof. unfold opt_out_row. by destruct (bool_decide _). Qed.

Lemma opt_out_row_opted_out p r :
  opted_out r = true → opt_out_row p r = r.
Proof.
  unfold opt_out_row. destruct r; simpl. intros ->. by destruct (bool_decide _).
Qed.

Lemma fmap_proj_ext {B} (proj : sale → B) (g : sale → sale) (l : list sale) :
  (∀ r, proj (g r) = proj r) → proj <$> (g <$> l) = proj <$> l.
Proof.
  intros H. rewrite <- list_fmap_compose. apply list_fmap_ext; intros; apply H.
Qed.

Lemma wf_step w w' : db_step w w' → wf w → wf w'.
Proof.
  intros Hstep [Hids Hphones Hnext].
  destruct Hstep as [Hs Hn _|row ext agent off src health plan extra _ _ Hs Hn _ _
                    |row extra Hf Hid Hs Hn _ _|p Hs Hn _].
  - split; rewrite ?Hs, ?Hn; done.
  - split; rewrite Hs, ?Hn.
    + rewrite fmap_proj_ext; [done|]. intros; apply update_row_id.
    + rewrite fmap_proj_ext; [done|]. intros; apply update_row_phone.
    + apply Forall_fmap. eapply Forall_impl; [exact Hnext|].
      intros r Hr. simpl. by rewrite update_row_id.
  - apply find_sale_None in Hf.
    split; rewrite Hs, ?Hn, ?fmap_app; simpl.
    + apply NoDup_app. split_and!; [done| |apply NoDup_singleton].
      intros i [r [-> Hr]]%list_elem_of_fmap Heq%list_elem_of_singleton.
      rewrite Forall_forall in Hnext. specialize (Hnext r Hr). simpl in *. lia.
    + apply NoDup_app. split_and!; [done| |apply NoDup_singleton].
      intros q Hq ->%list_elem_of_singleton. done.
    + apply Forall_app. split.
      * eapply Forall_impl; [exact Hnext|]. intros r Hr. simpl in *. lia.
      * constructor; [lia|constructor].
  - split; rewrite Hs, ?Hn.
    + rewrite fmap_proj_ext; [done|]. intros; apply opt_out_row_id.
    + rewrite fmap_proj_ext; [done|]. intros; apply opt_out_row_phone.
    + apply Forall_fmap. eapply Forall_impl; [exact Hnext|].
      intros r Hr. simpl. by rewrite opt_out_row_id.
Qed.

Lemma run_cons rq rqs w : run (rq :: rqs) w = run rqs (exec rq w).
Proof. done. Qed.

Lemma wf_exec rq w : wf w → wf (exec rq w).
Proof. apply wf_step, handle_step. Qed.

Lemma wf_run rqs w : wf w → wf (run rqs w).
Proof.
  revert w. induction rqs as [|rq rqs IH]; intros w Hw; [done|].
  rewrite run_cons. by apply IH, wf_exec.
Qed.

(** Sequential execution from the empty database stays within [wf]. *)
Lemma wf_reachable rqs : wf (run rqs empty_world).
Proof. apply wf_run, wf_empty. Qed.

Lemma find_sale_unique w row :
  wf w → row ∈ sales w → find_sale (phone row) w = Some row.
Proof.
  intros Hw Hrow. destruct (find_sale (phone row) w) as [r|] eqn:Hf.
  - apply find_sale_Some in Hf as [Hr Hp]. f_equal.
    eapply (NoDup_fmap_eq phone); eauto using wf_phones.
  - apply find_sale_None in Hf. destruct Hf. by apply list_elem_of_fmap_2.
Qed.



(** An opted-out row is never changed again, and no message is recorded
    for it. *)
Lemma step_opted_out w w' row :
  db_step w w' → wf w → row ∈ sales w → opted_out row = true →
  row ∈ sales w'
  ∧ ∃ extra, outbound_messages w' = outbound_messages w ++ extra
             ∧ Forall (λ m, om_sale_id m ≠ id row) extra.
Proof.
  intros Hstep Hw Hrow Hopt.
  destruct Hstep as [Hs _ Ho|r0 ext agent off src health plan extra Hf Hno Hs _ Ho Hall
                    |r0 extra _ Hid Hs _ Ho Hall|p Hs _ Ho]; rewrite Hs.
  - split; [done|]. exists []. by rewrite app_nil_r.
  - apply find_sale_Some in Hf as [Hr0 _].
    assert (id row ≠ id r0) as Hne.
    { intros Heq. assert (row = r0) as ->; [|congruence].
      eapply (NoDup_fmap_eq id); eauto using wf_ids. }
    split.
    + apply list_elem_of_fmap. exists row. split; [|done].
      by rewrite update_row_other.
    + exists extra. split; [done|]. eapply Forall_impl; [exact Hall|].
      simpl. intros m ->. done.
  - split; [apply elem_of_app; by left|].
    exists extra. split; [done|]. eapply Forall_impl; [exact Hall|].
    simpl. intros m ->. rewrite Hid.
    pose proof (wf_next _ Hw) as Hn. rewrite Forall_forall in Hn.
    specialize (Hn _ Hrow). lia.
  - split.
    + apply list_elem_of_fmap. exists row. split; [|done].
      by rewrite opt_out_row_opted_out.
    + exists []. by rewrite app_nil_r.
Qed.

(** ** One Sale row per phone *)



Definition row_from (body : json) (i : Z) (p : pystr) (opted : bool) : sale :=
  Sale i (field body "saleId") p (field body "agent") (field body "office")
       (field body "source") (field body "healthId") (field body "planType")
       opted.

(** The identifier the upsert works on, and the world it leaves. *)
Definition upsert_id (p : pystr) (w : world) : Z :=
  match find_sale p w with
  | Some row => id row
  | None => next_sale_id w
  end.

Definition upserted (body : json) (p : pystr) (w : world) : world :=
  match find_sale p w with
  | Some row => run_statement (updated_from body (id row)) w
  | None => inserted_from body p w
  end.

Lemma find_snoc_None (f : sale → bool) (l : list sale) x :
  List.find f l = None → List.find f (l ++ [x]) = if f x then Some x else None.
Proof.
  induction l as [|a l IH]; simpl; [done|]. destruct (f a); [done|apply IH].
Qed.

Lemma find_fmap_phone (g : sale → sale) p (l : list sale) :
  (∀ r, phone (g r) = phone r) →
  List.find (λ r, bool_decide (phone r = p)) (g <$> l)
  = g <$> List.find (λ r, bool_decide (phone r = p)) l.
Proof.
  intros Hg. induction l as [|r l IH]; csimpl; [done|].
  rewrite Hg. by destruct (bool_decide (phone r = p)).
Qed.

Lemma find_sale_upserted body p w :
  is_opted_out (find_sale p w) = false →
  find_sale p (upserted body p w)
  = Some (row_from body (upsert_id p w) p false).
Proof.
  unfold upserted, upsert_id. intros Hopt.
  destruct (find_sale p w) as [row|] eqn:Hf; simpl in Hopt.
  - unfold find_sale in *. simpl.
    rewrite find_fmap_phone by (intros; apply update_row_phone).
    rewrite Hf. simpl. apply find_some in Hf as [_ Hp].
    apply bool_decide_eq_true in Hp.
    unfold update_row, row_from. rewrite Z.eqb_refl. by rewrite Hp, Hopt.
  - unfold find_sale in *. simpl. rewrite find_snoc_None by done. simpl.
    by rewrite bool_decide_eq_true_2.
Qed.

Lemma new_sale_skipped body reply w p :
  request_phone body = Ok p →
  is_opted_out (find_sale p w) = true →
  new_sale body reply w = (w, Ok skipped_response).
Proof.
  intros Hp Hopt. rewrite (new_sale_spec _ _ _ _ Hp).
  destruct (find_sale p w); simpl in Hopt; [by rewrite Hopt|done].
Qed.

Lemma upserted_frame body p w :
  outbound_messages (upserted body p w) = outbound_messages w
  ∧ inbound_messages (upserted body p w) = inbound_messages w
  ∧ http_posts (upserted body p w) = http_posts w.
Proof. unfold upserted. by destruct (find_sale p w). Qed.


Lemma new_sale_refused body reply w p e :
  request_phone body = Ok p →
  is_opted_out (find_sale p w) = false →
  fields_error body = Some e →
  new_sale body reply w = (w, Raise e).
Proof.
  intros Hp Hopt He. rewrite (new_sale_spec _ _ _ _ Hp), He.
  destruct (find_sale p w); simpl in Hopt; by rewrite ?Hopt.
Qed.

Lemma new_sale_world body reply w p :
  request_phone body = Ok p →
  is_opted_out (find_sale p w) = false →
  fields_error body = None →
  new_sale body reply w =
    let w1 := log_post (sms_data p text_msg) (upserted body p w) in
    match recorded_sid reply with
    | Ok sid =>
        (run_statement
           (InsertOutboundMessage (upsert_id p w) text_msg (str "telnyx") sid) w1,
         Ok (sent_response (upsert_id p w) p sid))
    | Raise e => (w1, Raise e)
    end.
Proof.
  intros Hp Hopt He. rewrite (new_sale_spec _ _ _ _ Hp), He.
  unfold upsert_id, upserted.
  destruct (find_sale p w) as [row|]; simpl in Hopt; rewrite ?Hopt;
    by rewrite send_step_spec.
Qed.

Lemma new_sale_world_posts body reply w p :
  request_phone body = Ok p →
  is_opted_out (find_sale p w) = false →
  fields_error body = None →
  http_posts (new_sale body reply w).1 = http_posts w ++ [sms_data p text_msg]
  ∧ sales (new_sale body reply w).1 = sales (upserted body p w).
Proof.
  intros Hp Hopt He. rewrite (new_sale_world _ _ _ _ Hp Hopt He). simpl.
  destruct (upserted_frame body p w) as (_ & _ & Hh).
  destruct (recorded_sid reply); simpl; by rewrite Hh.
Qed.

(** A request that sent its HTTP request got past the lookup and the
    upsert. *)
Lemma new_sale_sent body reply w p :
  request_phone body = Ok p →
  http_posts (new_sale body reply w).1 ≠ http_posts w →
  is_opted_out (find_sale p w) = false ∧ fields_error body = None.
Proof.
  intros Hp Hsent.
  destruct (is_opted_out (find_sale p w)) eqn:Hopt.
  { by rewrite (new_sale_skipped _ _ _ _ Hp Hopt) in Hsent. }
  destruct (fields_error body) as [e|] eqn:He; [|done].
  by rewrite (new_sale_refused _ _ _ _ _ Hp Hopt He) in Hsent.
Qed.


(** ** Opt-out is permanent *)

(** C7: from a world that satisfies the table invariant, whatever requests
    follow, a Sale row with [opted_out] set stays in the table unchanged
    (nothing sets the flag back), it remains the only row of its phone, and
    every outbound message recorded later belongs to another sale, one with
    a different phone. *)
Theorem C7_opt_out_permanent w row rqs :
  wf w → row ∈ sales w → opted_out row = true →
  let w' := run rqs w in
  row ∈ sales w'
  ∧ (∀ r, r ∈ sales w' → phone r = phone row → r = row)
  ∧ ∃ later, outbound_messages w' = outbound_messages w ++ later
      ∧ Forall (λ m, om_sale_id m ≠ id row) later
      ∧ ∀ m r, m ∈ later → r ∈ sales w' → id r = om_sale_id m →
               phone r ≠ phone row.
Proof.
  intros Hw Hrow Hopt w'.
  assert (row ∈ sales w'
          ∧ ∃ later, outbound_messages w' = outbound_messages w ++ later
              ∧ Forall (λ m, om_sale_id m ≠ id row) later) as (Hin & later & Ho & Hl).
  { unfold w'. clear w'. revert w Hw Hrow.
    induction rqs as [|rq rqs IH]; intros w Hw Hrow.
    - split; [done|]. exists []. split; [by rewrite app_nil_r|constructor].
    - rewrite run_cons.
      destruct (step_opted_out _ _ _ (handle_step rq w) Hw Hrow Hopt)
        as (Hrow1 & extra1 & Ho1 & Hall1).
      destruct (IH _ (wf_exec rq _ Hw) Hrow1) as (Hrow2 & extra2 & Ho2 & Hall2).
      split; [done|]. exists (extra1 ++ extra2).
      split; [by rewrite Ho2, Ho1, app_assoc|by apply Forall_app]. }
  assert (∀ r, r ∈ sales w' → phone r = phone row → r = row) as Honly.
  { intros r Hr Hph. eapply (NoDup_fmap_eq phone); eauto.
    apply wf_phones, wf_run, Hw. }
  split_and!; [done..|]. exists later. split_and!; [done..|].
  intros m r Hm Hr Hid Hph. rewrite Forall_forall in Hl.
  apply (Hl _ Hm). rewrite <- Hid. by rewrite (Honly _ Hr Hph).
Qed.

(** ** A failed send is recorded *)



(** ** The gateway client *)

(** C6: [send_sms_via_telnyx] catches what [requests] raises as a
    [RequestException] and nothing else.  It returns the synthetic
    [{"data": {"id": "FAILED"}}] when there is no response, when the status
    is 4xx or 5xx and when the body is not JSON; it returns the parsed body
    of every other response whose body parses; an error of [response.json()]
    that is not a [RequestException] reaches the caller. *)
Theorem C6_gateway_catches_request_exceptions to_number message reply w :
  send_sms_via_telnyx to_number message reply w
  = (log_post (sms_data to_number message) w, gateway_result reply)
  ∧ gateway_result NoResponse = Ok failed_response
  ∧ (∀ st body, 400 ≤ st < 600 →
       gateway_result (Reply (Response st body)) = Ok failed_response)
  ∧ (∀ st e, is_RequestException e = true →
       gateway_result (Reply (Response st (Raise e))) = Ok failed_response)
  ∧ (∀ st v, ¬ 400 ≤ st < 600 →
       gateway_result (Reply (Response st (Ok v))) = Ok v)
  ∧ (∀ st e, ¬ 400 ≤ st < 600 → is_RequestException e = false →
       gateway_result (Reply (Response st (Raise e))) = Raise e).
Proof.
  split_and!.
  - apply send_sms_via_telnyx_spec.
  - done.
  - intros st body [H1 H2]. simpl.
    apply Z.leb_le in H1. apply Z.ltb_lt in H2. by rewrite H1, H2.
  - intros st e He. simpl. rewrite He. by destruct (_ && _).
  - intros st v H. simpl.
    destruct (Z.leb_spec 400 st), (Z.ltb_spec st 600); simpl; try done. lia.
  - intros st e H He. simpl. rewrite He.
    destruct (Z.leb_spec 400 st), (Z.ltb_spec st 600); simpl; try done. lia.
Qed.

(** ** The inbound webhook *)

Lemma py_lstrip_spaces ws rest :
  Forall (λ c, is_space U c = true) ws →
  py_lstrip (ws ++ rest) = py_lstrip rest.
Proof. induction 1 as [|c ws Hc _ IH]; simpl; [done|]. by rewrite Hc. Qed.

Lemma py_lstrip_keeps c rest :
  is_space U c = false → py_lstrip (c :: rest) = c :: rest.
Proof. simpl. by intros ->. Qed.

(** The letters S, T, O, P in either case. *)
Definition stop_letters (core : pystr) : Prop :=
  Forall (λ c, (c < 128)%N) core ∧ ascii_upper <$> core = str "STOP".

Lemma ascii_letter_not_space c u :
  (c < 128)%N → ascii_upper c = u → (65 ≤ u)%N → is_space U c = false.
Proof.
  intros Hc Hu Hle. rewrite (is_space_ascii U c Hc).
  unfold ascii_upper in Hu. unfold ascii_space.
  destruct (N.leb_spec 97 c), (N.leb_spec c 122), (N.leb_spec 9 c),
    (N.leb_spec c 13), (N.leb_spec 28 c), (N.leb_spec c 32);
    simpl in *; try done; lia.
Qed.

Lemma any_case_stop ws1 core ws2 :
  Forall (λ c, is_space U c = true) ws1 →
  Forall (λ c, is_space U c = true) ws2 →
  stop_letters core →
  py_upper (py_strip (ws1 ++ core ++ ws2)) = str "STOP".
Proof.
  intros H1 H2 [Hascii Hup].
  destruct core as [|c1 [|c2 [|c3 [|c4 [|]]]]]; try done.
  injection Hup as Hu1 Hu2 Hu3 Hu4.
  apply Forall_cons in Hascii as [Ha1 Hascii].
  apply Forall_cons in Hascii as [Ha2 Hascii].
  apply Forall_cons in Hascii as [Ha3 Hascii].
  apply Forall_cons in Hascii as [Ha4 _].
  unfold py_strip. rewrite py_lstrip_spaces by done. cbn [app].
  rewrite py_lstrip_keeps
    by (eapply ascii_letter_not_space; [done..|vm_compute; discriminate]).
  replace (reverse (c1 :: c2 :: c3 :: c4 :: ws2))
    with (reverse ws2 ++ [c4; c3; c2; c1])
    by (rewrite !reverse_cons, <- !app_assoc; done).
  rewrite py_lstrip_spaces by by apply Forall_reverse.
  rewrite py_lstrip_keeps
    by (eapply ascii_letter_not_space; [done..|vm_compute; discriminate]).
  unfold py_upper. simpl.
  rewrite !(to_upper_full_ascii U) by done. simpl.
  by rewrite Hu1, Hu2, Hu3, Hu4.
Qed.

Lemma find_sale_opt_out p q w :
  find_sale q (run_statement (OptOutByPhone p) w)
  = opt_out_row p <$> find_sale q w.
Proof.
  unfold find_sale. simpl. induction (sales w) as [|r l IH]; simpl; [done|].
  rewrite opt_out_row_phone. by destruct (bool_decide (phone r = q)).
Qed.

Lemma opt_out_absent p (l : list sale) :
  p ∉ phone <$> l → opt_out_row p <$> l = l.
Proof.
  induction l as [|r l IH]; csimpl; intros Hp; [done|].
  apply not_elem_of_cons in Hp as [Hne Hp]. rewrite IH by done.
  unfold opt_out_row. by rewrite bool_decide_eq_false_2.
Qed.

Lemma py_lstrip_elem c s :
  c ∈ s → is_space U c = false → c ∈ py_lstrip s.
Proof.
  intros Hc Hsp. induction s as [|a s IH]; simpl; [done|].
  destruct (is_space U a) eqn:Ha; [|done].
  apply elem_of_cons in Hc as [->|Hc]; [congruence|by apply IH].
Qed.

Lemma py_strip_elem c s :
  c ∈ s → is_space U c = false → c ∈ py_strip s.
Proof.
  intros Hc Hsp. unfold py_strip.
  apply elem_of_reverse, py_lstrip_elem; [|done].
  by apply elem_of_reverse, py_lstrip_elem.
Qed.

(** A text that is STOP once stripped and uppercased has no NUL character:
    the driver takes it. *)
Lemma stop_text_adapts text :
  py_upper (py_strip text) = str "STOP" → adapt_error (JStr text) = None.
Proof.
  intros Hstop. simpl. destruct (existsb (N.eqb 0) text) eqn:Hex; [|done].
  apply existsb_exists in Hex as (c & Hin & Hc).
  apply N.eqb_eq in Hc as <-. apply list_elem_of_In in Hin.
  assert (0%N ∈ py_upper (py_strip text)) as H0.
  { unfold py_upper. apply list_elem_of_bind. exists 0%N. split.
    - rewrite (to_upper_full_ascii U 0) by done. by apply list_elem_of_singleton.
    - apply py_strip_elem; [done|]. by rewrite (is_space_ascii U 0). }
  rewrite Hstop in H0. apply list_elem_of_In in H0. simpl in H0.
  by repeat destruct H0 as [H0|H0].
Qed.

Lemma inbound_sms_text payload p text w :
  inbound_request payload = Ok (p, JStr text) →
  adapt_error (JStr text) = None →
  inbound_sms payload w =
    let w1 := inbound_logged p (JStr text) w in
    if bool_decide (py_upper (py_strip text) = str "STOP")
    then (run_statement (OptOutByPhone p) w1, Ok ok_response)
    else (w1, Ok ok_response).
Proof.
  intros Hreq Ha. rewrite inbound_sms_spec, Hreq. cbv beta iota.
  rewrite Ha. simpl. by destruct (bool_decide _).
Qed.

(** C4: an inbound webhook whose text, stripped and uppercased, is ["STOP"]
    (the letters in any case between any whitespace qualify) is answered
    [ok]; the [sales] table is updated by phone: every Sale of the normalized
    sender phone has [opted_out] set afterwards and keeps its identifier; if
    no Sale has that phone, the InboundMessage written has a null sale
    reference and the [sales] table is unchanged. *)
Theorem C4_inbound_stop payload p text w :
  inbound_request payload = Ok (p, JStr text) →
  py_upper (py_strip text) = str "STOP" →
  let w' := (inbound_sms payload w).1 in
  (∀ ws1 core ws2,
      Forall (λ c, is_space U c = true) ws1 →
      Forall (λ c, is_space U c = true) ws2 →
      stop_letters core →
      py_upper (py_strip (ws1 ++ core ++ ws2)) = str "STOP")
  ∧ (inbound_sms payload w).2 = Ok ok_response
  ∧ sales w' = opt_out_row p <$> sales w
  ∧ (∀ row, row ∈ sales w → phone row = p →
       opt_out_row p row ∈ sales w'
       ∧ opted_out (opt_out_row p row) = true
       ∧ id (opt_out_row p row) = id row)
  ∧ (∀ row, find_sale p w = Some row →
       find_sale p w' = Some (opt_out_row p row))
  ∧ (∀ r, r ∈ sales w' → phone r = p → opted_out r = true)
  ∧ (find_sale p w = None →
       sales w' = sales w
       ∧ inbound_messages w'
         = inbound_messages w ++ [InboundMessage None p (JStr text)]).
Proof.
  intros Hreq Hstop w'. split; [apply any_case_stop|].
  unfold w'. clear w'.
  rewrite (inbound_sms_text _ _ _ _ Hreq (stop_text_adapts _ Hstop)).
  rewrite bool_decide_eq_true_2 by done. simpl.
  split_and!; try done.
  - intros row Hrow Hph. split_and!.
    + by apply list_elem_of_fmap_2.
    + unfold opt_out_row. by rewrite bool_decide_eq_true_2.
    + apply opt_out_row_id.
  - intros row Hrow.
    pose proof (find_sale_opt_out p p (inbound_logged p (JStr text) w)) as Hf.
    unfold inbound_logged in Hf. simpl in Hf.
    unfold find_sale in *. simpl in *. by rewrite Hf, Hrow.
  - intros r [r0 [-> _]]%list_elem_of_fmap. rewrite opt_out_row_phone.
    intros Hp. unfold opt_out_row. by rewrite bool_decide_eq_true_2.
  - intros Hnone. rewrite Hnone. split; [|done].
    apply opt_out_absent. by apply find_sale_None.
Qed.

(** A payload the handler can read: [data], [data.payload] and [from] are
    absent or objects, [phone_number] is absent, falsy or a string, [text]
    is absent or a string. *)
Definition readable_inbound (payload : json) : bool :=
  match payload with
  | JObj m =>
      match m !! str "data" with
      | None => true
      | Some (JObj d) =>
          match d !! str "payload" with
          | None => true
          | Some (JObj data) =>
              match data !! str "from" with
              | None => true
              | Some (JObj from) =>
                  match from !! str "phone_number" with
                  | None => true
                  | Some v => negb (py_truthy v) || is_str v
                  end
              | Some _ => false
              end
              && match data !! str "text" with
                 | None => true
                 | Some v => is_str v
                 end
          | Some _ => false
          end
      | Some _ => false
      end
  | _ => false
  end.

Lemma readable_inbound_request payload :
  readable_inbound payload = true →
  ∃ p text, inbound_request payload = Ok (p, JStr text).
Proof.
  destruct payload as [| | | | | |m]; try done. unfold inbound_request. simpl.
  destruct (m !! str "data") as [[| | | | | |d]|]; try done; simpl;
    [|by (exists (str "+"), (str ""))].
  destruct (d !! str "payload") as [[| | | | | |data]|]; try done; simpl;
    [|by (exists (str "+"), (str ""))].
  intros [Hfrom Htext]%andb_true_iff.
  assert (∃ p, rbind (rbind (py_get (JObj data) (str "from") (JObj ∅)) (λ from,
                 py_get from (str "phone_number") JNull)) normalize_phone = Ok p)
    as [p Hp].
  { simpl. destruct (data !! str "from") as [[| | | | | |from]|]; try done; simpl.
    - destruct (from !! str "phone_number") as [v|]; simpl.
      + by apply normalize_phone_readable.
      + by exists (str "+").
    - by exists (str "+"). }
  simpl in Hp.
  destruct (data !! str "from") as [[| | | | | |from]|]; try done; simpl in *.
  - destruct (normalize_phone _) as [q|]; [|done].
    destruct (data !! str "text") as [[| | | | text| |]|]; try done; simpl; eauto.
  - destruct (data !! str "text") as [[| | | | text| |]|]; try done; simpl; eauto.
Qed.

(** The text the handler reads from a payload ([None] where it reads
    nothing). *)
Definition text_of (payload : json) : json :=
  match inbound_request payload with
  | Ok (_, body) => body
  | Raise _ => JNull
  end.

(** C8: on a payload the handler can read and whose text the database
    driver can store (no NUL character, no lone surrogate), one
    InboundMessage row is written (the matched sale identifier or null, the
    normalized sender phone, the text) and the answer is [{ok: true}], the
    same whether a Sale matched the sender or not.  A text the driver
    refuses makes the handler raise with nothing written. *)
Theorem C8_one_inbound_row payload w :
  readable_inbound payload = true →
  storable (text_of payload) = true →
  ∃ p text w',
    inbound_request payload = Ok (p, JStr text)
    ∧ inbound_sms payload w = (w', Ok ok_response)
    ∧ inbound_messages w'
      = inbound_messages w
        ++ [InboundMessage (id <$> find_sale p w) p (JStr text)]
    ∧ field ok_response "ok" = JBool true
    ∧ ∀ payload' p' body e,
        inbound_request payload' = Ok (p', body) →
        adapt_error body = Some e →
        inbound_sms payload' w = (w, Raise e).
Proof.
  intros (p & text & Hreq)%readable_inbound_request Hst.
  unfold text_of in Hst. rewrite Hreq in Hst.
  apply storable_adapts in Hst.
  exists p, text. rewrite (inbound_sms_text _ _ _ _ Hreq Hst). simpl.
  assert (∀ payload' p' body e,
    inbound_request payload' = Ok (p', body) →
    adapt_error body = Some e →
    inbound_sms payload' w = (w, Raise e)) as Hrefused.
  { intros payload' p' body e Hreq' He.
    rewrite inbound_sms_spec, Hreq'. cbv beta iota. by rewrite He. }
  destruct (bool_decide _); simpl; eexists; done.
Qed.

(** [{"data": {"payload": {"from": null}}}] *)
Definition from_null : json :=
  obj [("data", obj [("payload", obj [("from", JNull)])])]%string.

(** [{"data": {"payload": {"text": null}}}] *)
Definition text_null : json :=
  obj [("data", obj [("payload", obj [("text", JNull)])])]%string.

(** C9: the handler tolerates absent keys but not every null.  On a payload
    the handler can read ([data], [data.payload], [from] absent or objects,
    [phone_number] absent, falsy or a string, [text] absent or a string) and
    whose text the database driver can store, it completes and answers
    [{ok: true}]; on [{"data": {"payload": {"from": null}}}] it raises, in
    every world, before it writes anything. *)
Theorem C9_absent_keys_tolerated payload w :
  readable_inbound payload = true →
  storable (text_of payload) = true →
  (inbound_sms payload w).2 = Ok ok_response
  ∧ inbound_sms from_null w = (w, Raise AttributeError).
Proof.
  intros (p & text & Hreq)%readable_inbound_request Hst.
  unfold text_of in Hst. rewrite Hreq in Hst.
  apply storable_adapts in Hst. split; [|reflexivity].
  rewrite (inbound_sms_text _ _ _ _ Hreq Hst). simpl.
  by destruct (bool_decide _).
Qed.

(** ** Requests without a usable phone *)





(** ** The opt-out short-circuit *)

(** C3: a new-sale request whose normalized phone is that of a Sale with
    [opted_out] set (the row the lookup returns, which under the table
    invariant is any row of that phone) is answered [{ok: true,
    skipped_send: true, reason: "opted_out"}]; the world after the handler is
    the world before it: no table is written and no HTTP request is sent. *)
Theorem C3_opted_out_short_circuit body reply w p row :
  request_phone body = Ok p →
  row ∈ sales w → phone row = p → opted_out row = true →
  wf w ∨ find_sale p w = Some row →
  new_sale body reply w = (w, Ok skipped_response)
  ∧ field skipped_response "ok" = JBool true
  ∧ field skipped_response "skipped_send" = JBool true
  ∧ field skipped_response "reason" = JStr (str "opted_out").
Proof.
  intros Hp Hin Hph Hopt Hrow. split; [|done].
  assert (find_sale p w = Some row) as Hf.
  { destruct Hrow as [Hw|]; [|done]. rewrite <- Hph. by apply find_sale_unique. }
  rewrite (new_sale_spec _ _ _ _ Hp), Hf, Hopt. done.
Qed.

(** * Further properties of the code *)

(** ** The normalizer on its own output and on ill-typed input *)

(** X1: a canonical phone is a fixed point of the normalizer: normalizing the
    result of [normalize_phone] again gives the same result, and an input on
    which the normalizer raises still raises. *)
Theorem X1_normalize_phone_idempotent raw :
  rbind (normalize_phone raw) (λ p, normalize_phone (JStr p))
  = normalize_phone raw.
Proof.
  destruct (py_truthy raw) eqn:Ht.
  - destruct raw; try (unfold normalize_phone, py_or; rewrite Ht; done).
    rewrite normalize_phone_str. simpl.
    by rewrite normalize_phone_str, normalize_spec_canonical.
  - rewrite normalize_phone_falsy by done. simpl.
    rewrite normalize_phone_str. f_equal. change (str "+") with [43%N].
    rewrite normalize_spec_cases. cbv zeta. rewrite strip_plus. done.
Qed.

(** X2: [normalize_phone] raises exactly on a truthy value that is not a
    string (a non-zero number, [true], a non-empty list or object), and what
    it raises is [TypeError]; on every other value it returns. *)
Theorem X2_normalize_phone_type_error raw :
  (py_truthy raw = true ∧ is_str raw = false →
     normalize_phone raw = Raise TypeError)
  ∧ (∀ e, normalize_phone raw = Raise e →
       e = TypeError ∧ py_truthy raw = true ∧ is_str raw = false)
  ∧ (py_truthy raw = false ∨ is_str raw = true →
       ∃ p, normalize_phone raw = Ok p).
Proof.
  split_and!.
  - intros [Ht Hs]. unfold normalize_phone, py_or. rewrite Ht.
    by destruct raw.
  - intros e He. destruct (py_truthy raw) eqn:Ht.
    + destruct raw; try (unfold normalize_phone, py_or in He; rewrite Ht in He;
        simpl in He; by simplify_eq).
      by rewrite normalize_phone_str in He.
    + by rewrite normalize_phone_falsy in He.
  - intros H. apply normalize_phone_readable.
    destruct H as [->| ->]; [done|]. by rewrite orb_true_r.
Qed.

(** X3: the canonical phone depends on the digits of the input only, and a
    ten-digit number and the same number with a leading 1 have the same
    canonical phone. *)
Theorem X3_normalize_phone_digits_only s t :
  (strip_non_digits s = strip_non_digits t →
     normalize_phone (JStr s) = normalize_phone (JStr t))
  ∧ (length (strip_non_digits s) = 10%nat →
     strip_non_digits t = 49%N :: strip_non_digits s →
     normalize_phone (JStr t) = normalize_phone (JStr s)).
Proof.
  rewrite !normalize_phone_str. split.
  - intros H. f_equal. rewrite !normalize_spec_cases. simpl. by rewrite H.
  - intros Hlen Ht. f_equal. rewrite !normalize_spec_cases. simpl.
    rewrite Ht. rewrite decide_False by (simpl; lia).
    by rewrite decide_True by done.
Qed.

(** X4: on a string the result is ["+"] followed by decimal digits only:
    the digits of the input in their order, with a 1 put in front when there
    are exactly ten. *)
Theorem X4_normalize_phone_shape s :
  ∃ ds, normalize_phone (JStr s) = Ok (43%N :: ds)
        ∧ Forall (λ c, is_decimal U c = true) ds
        ∧ ds = (if decide (length (strip_non_digits s) = 10%nat)
                then 49%N :: strip_non_digits s else strip_non_digits s).
Proof.
  rewrite normalize_phone_str, normalize_spec_cases. simpl.
  pose proof (strip_non_digits_all s) as Hall.
  case_decide; eexists; split_and!; try done.
  constructor; [apply one_is_decimal|done].
Qed.


(** ** [new_sale]: what is written, sent and raised *)

Lemma provider_sid_of_raises v e :
  provider_sid_of v = Raise e → e = AttributeError.
Proof.
  unfold provider_sid_of, rbind.
  destruct v; simpl; try congruence.
  destruct (default _ _); simpl; congruence.
Qed.

(** X5: a new-sale request whose body is not a JSON object raises
    [AttributeError], one whose phone is a truthy non-string (a JSON number,
    for instance) raises [TypeError]; in both cases before anything is
    written or sent: the world is unchanged. *)
Theorem X5_new_sale_rejects_before_writing body reply w :
  ((∀ m, body ≠ JObj m) →
     new_sale body reply w = (w, Raise AttributeError))
  ∧ (∀ m v, body = JObj m → m !! str "phone" = Some v →
       py_truthy v = true → is_str v = false →
       new_sale body reply w = (w, Raise TypeError)).
Proof.
  split.
  - intros Hobj. apply new_sale_raises.
    destruct body; try done. by destruct (Hobj m).
  - intros m v -> Hv Ht Hs. apply new_sale_raises.
    unfold request_phone. simpl. rewrite Hv. simpl.
    unfold normalize_phone, py_or. rewrite Ht. by destruct v.
Qed.

Lemma skipped_response_skipped :
  field skipped_response "skipped_send" = JBool true.
Proof. reflexivity. Qed.

(** An answer other than the skipped one comes from the end of the
    handler. *)
Lemma new_sale_answered body reply w resp :
  (new_sale body reply w).2 = Ok resp →
  field resp "skipped_send" = JBool false →
  ∃ p sid,
    request_phone body = Ok p
    ∧ is_opted_out (find_sale p w) = false
    ∧ fields_error body = None
    ∧ recorded_sid reply = Ok sid
    ∧ resp = sent_response (upsert_id p w) p sid.
Proof.
  intros Hresp Hskip.
  destruct (request_phone body) as [p|e] eqn:Hp;
    [|by rewrite (new_sale_raises _ _ _ _ Hp) in Hresp].
  destruct (is_opted_out (find_sale p w)) eqn:Hopt.
  { rewrite (new_sale_skipped _ _ _ _ Hp Hopt) in Hresp. simpl in Hresp.
    simplify_eq; by rewrite skipped_response_skipped in Hskip. }
  destruct (fields_error body) as [e|] eqn:He;
    [by rewrite (new_sale_refused _ _ _ _ _ Hp Hopt He) in Hresp|].
  rewrite (new_sale_world _ _ _ _ Hp Hopt He) in Hresp. simpl in Hresp.
  destruct (recorded_sid reply) as [sid|] eqn:Hsid; [|done].
  simpl in Hresp. simplify_eq. by exists p, sid.
Qed.

(** X6: when a new-sale request is answered and not skipped, the things it
    reports agree: the row the phone lookup now returns carries the answer's
    [sale_id], the canonical phone and the six submitted fields; the one
    OutboundMessage added carries that [sale_id] and the answer's
    [provider_sid]; exactly one HTTP request was sent, addressed to the
    canonical phone.  No InboundMessage is written. *)
Theorem X6_new_sale_report_agrees body reply w resp :
  (new_sale body reply w).2 = Ok resp →
  field resp "skipped_send" = JBool false →
  let w' := (new_sale body reply w).1 in
  ∃ i p sid,
    resp = sent_response i p sid
    ∧ request_phone body = Ok p
    ∧ find_sale p w' = Some (row_from body i p false)
    ∧ outbound_messages w'
      = outbound_messages w ++ [OutboundMessage i text_msg (str "telnyx") sid]
    ∧ http_posts w' = http_posts w ++ [sms_data p text_msg]
    ∧ field (sms_data p text_msg) "to" = JStr p
    ∧ inbound_messages w' = inbound_messages w.
Proof.
  intros Hresp Hskip w'.
  destruct (new_sale_answered _ _ _ _ Hresp Hskip)
    as (p & sid & Hp & Hopt & He & Hsid & ->).
  exists (upsert_id p w), p, sid.
  pose proof (find_sale_upserted body p w Hopt) as Hf.
  destruct (upserted_frame body p w) as (Ho & Hi & Hh).
  unfold w'. rewrite (new_sale_world _ _ _ _ Hp Hopt He), Hsid. simpl.
  rewrite Ho, Hi, Hh. split_and!; done.
Qed.

(** X7: if the request got as far as sending its message and the gateway's
    answer is JSON from which [data.id] cannot be read (the answer or its
    [data] is not an object), the handler raises [AttributeError]: the
    upsert is kept, the message went out, and no OutboundMessage records
    it. *)
Theorem X7_new_sale_unreadable_answer body reply w p v e :
  request_phone body = Ok p →
  http_posts (new_sale body reply w).1 ≠ http_posts w →
  gateway_result reply = Ok v →
  provider_sid_of v = Raise e →
  ∃ w',
    new_sale body reply w = (w', Raise AttributeError)
    ∧ find_sale p w' = Some (row_from body (upsert_id p w) p false)
    ∧ http_posts w' = http_posts w ++ [sms_data p text_msg]
    ∧ outbound_messages w' = outbound_messages w.
Proof.
  intros Hp Hsent Hv Hsid.
  destruct (new_sale_sent _ _ _ _ Hp Hsent) as [Hopt He].
  rewrite (new_sale_world _ _ _ _ Hp Hopt He).
  unfold recorded_sid. rewrite Hv. simpl. rewrite Hsid. simpl.
  rewrite (provider_sid_of_raises _ _ Hsid).
  eexists. split; [reflexivity|].
  pose proof (find_sale_upserted body p w Hopt) as Hf.
  destruct (upserted_frame body p w) as (Ho & Hi & Hh).
  simpl. rewrite Ho, Hh. split_and!; done.
Qed.

(** X8: when the request got as far as sending its message, an answer the
    client takes for a success (status outside 400..599, JSON object body)
    that has no [data] member, or whose [data] object has no [id], is
    recorded with [provider_sid] ["FAILED"], like a failed send. *)
Theorem X8_missing_provider_id_is_failed body st m w p :
  let reply := Reply (Response st (Ok (JObj m))) in
  request_phone body = Ok p →
  http_posts (new_sale body reply w).1 ≠ http_posts w →
  ¬ 400 ≤ st < 600 →
  m !! str "data" = None
  ∨ (∃ d, m !! str "data" = Some (JObj d) ∧ d !! str "id" = None) →
  ∃ i w',
    new_sale body reply w
    = (w', Ok (sent_response i p (JStr (str "FAILED"))))
    ∧ outbound_messages w'
      = outbound_messages w
        ++ [OutboundMessage i text_msg (str "telnyx") (JStr (str "FAILED"))].
Proof.
  intros reply Hp Hsent Hst Hm.
  destruct (new_sale_sent _ _ _ _ Hp Hsent) as [Hopt He].
  assert (gateway_result reply = Ok (JObj m)) as Hg.
  { simpl. destruct (Z.leb_spec 400 st), (Z.ltb_spec st 600); simpl; try done.
    lia. }
  assert (provider_sid_of (JObj m) = Ok (JStr (str "FAILED"))) as Hsid.
  { unfold provider_sid_of. simpl.
    destruct Hm as [->|(d & -> & Hd)]; simpl; [done|]. by rewrite Hd. }
  rewrite (new_sale_world _ _ _ _ Hp Hopt He).
  unfold recorded_sid. rewrite Hg. simpl. rewrite Hsid. simpl.
  destruct (upserted_frame body p w) as (Ho & _).
  eexists _, _. split; [reflexivity|]. simpl. by rewrite Ho.
Qed.

(** X9: a new-sale request leaves the rows of every other phone as they
    are: under the table invariant, a row whose phone is not the request's
    canonical phone is in the table afterwards, unchanged. *)
Theorem X9_new_sale_other_rows_untouched body reply w row :
  wf w →
  row ∈ sales w →
  request_phone body ≠ Ok (phone row) →
  row ∈ sales (new_sale body reply w).1.
Proof.
  intros Hw Hrow Hne.
  destruct (request_phone body) as [p|e] eqn:Hp;
    [|by rewrite (new_sale_raises _ _ _ _ Hp)].
  destruct (is_opted_out (find_sale p w)) eqn:Hopt;
    [by rewrite (new_sale_skipped _ _ _ _ Hp Hopt)|].
  destruct (fields_error body) as [e|] eqn:He;
    [by rewrite (new_sale_refused _ _ _ _ _ Hp Hopt He)|].
  destruct (new_sale_world_posts body reply w p Hp Hopt He) as [_ ->].
  unfold upserted. destruct (find_sale p w) as [row0|] eqn:Hf; simpl.
  - apply find_sale_Some in Hf as [Hr0 Hp0].
    apply list_elem_of_fmap. exists row. split; [|done].
    rewrite update_row_other; [done|]. intros Hid.
    assert (row = row0) as -> by
      (eapply (NoDup_fmap_eq id); eauto using wf_ids).
    congruence.
  - apply elem_of_app. by left.
Qed.


(** ** [inbound_sms]: what it never does, and what a second STOP does *)

Lemma opt_out_row_twice p r : opt_out_row p (opt_out_row p r) = opt_out_row p r.
Proof.
  unfold opt_out_row. destruct (bool_decide (phone r = p)) eqn:Hp; simpl;
    by rewrite Hp.
Qed.

(** X10: whatever the payload, the inbound handler sends no HTTP request,
    records no OutboundMessage, draws no identifier, and neither adds nor
    removes a Sale: the [sales] table is the old one, or the old one with
    [opted_out] set on the rows of the sender's phone.  It writes at most one
    InboundMessage. *)
Theorem X10_inbound_sms_frame payload w :
  let w' := (inbound_sms payload w).1 in
  http_posts w' = http_posts w
  ∧ outbound_messages w' = outbound_messages w
  ∧ next_sale_id w' = next_sale_id w
  ∧ (sales w' = sales w
     ∨ ∃ p body, inbound_request payload = Ok (p, body)
                 ∧ sales w' = opt_out_row p <$> sales w)
  ∧ (inbound_messages w' = inbound_messages w
     ∨ ∃ m, inbound_messages w' = inbound_messages w ++ [m]).
Proof.
  simpl. rewrite inbound_sms_spec.
  destruct (inbound_request payload) as [[p body]|e]; simpl;
    [|split_and!; by eauto].
  destruct (adapt_error body); simpl; [split_and!; by eauto|].
  destruct (is_stop body) as [[]|]; simpl; split_and!; by eauto.
Qed.

(** X11: the opt-out keyword must be the whole text.  A text that, stripped
    and uppercased, is anything but ["STOP"] leaves the [sales] table as it
    was; when the driver can store the text it is logged and answered
    [ok]. *)
Theorem X11_inbound_sms_other_text payload p text w :
  inbound_request payload = Ok (p, JStr text) →
  py_upper (py_strip text) ≠ str "STOP" →
  sales (inbound_sms payload w).1 = sales w
  ∧ (storable_text text = true →
     inbound_sms payload w = (inbound_logged p (JStr text) w, Ok ok_response)
     ∧ inbound_messages (inbound_logged p (JStr text) w)
       = inbound_messages w
         ++ [InboundMessage (id <$> find_sale p w) p (JStr text)]).
Proof.
  intros Hreq Hne. split.
  - rewrite inbound_sms_spec, Hreq. cbv beta iota.
    destruct (adapt_error (JStr text)); [done|]. simpl.
    by rewrite bool_decide_eq_false_2.
  - intros Hst.
    rewrite (inbound_sms_text _ _ _ _ Hreq (storable_adapts (JStr text) Hst)).
    simpl. by rewrite bool_decide_eq_false_2.
Qed.

(** X12: opting out is idempotent: a second STOP from the same sender leaves
    the [sales] table as the first one left it (and is logged again). *)
Theorem X12_inbound_stop_idempotent payload p text w :
  inbound_request payload = Ok (p, JStr text) →
  py_upper (py_strip text) = str "STOP" →
  let w1 := (inbound_sms payload w).1 in
  let w2 := (inbound_sms payload w1).1 in
  sales w2 = sales w1
  ∧ length (inbound_messages w2) = S (S (length (inbound_messages w))).
Proof.
  intros Hreq Hstop. simpl.
  rewrite !(inbound_sms_text _ _ _ _ Hreq (stop_text_adapts _ Hstop)).
  rewrite bool_decide_eq_true_2 by done. simpl. split.
  - rewrite <- list_fmap_compose. apply list_fmap_ext.
    intros _ r _. apply opt_out_row_twice.
  - rewrite !length_app. simpl. lia.
Qed.

(** X13: STOP takes effect on the next submission: after an inbound STOP
    from a phone that has a Sale, a new-sale request for that phone is
    skipped and changes nothing. *)
Theorem X13_stop_then_new_sale_skipped payload p text body reply w row :
  inbound_request payload = Ok (p, JStr text) →
  py_upper (py_strip text) = str "STOP" →
  request_phone body = Ok p →
  find_sale p w = Some row →
  let w1 := (inbound_sms payload w).1 in
  new_sale body reply w1 = (w1, Ok skipped_response).
Proof.
  intros Hreq Hstop Hp Hrow. simpl.
  rewrite (inbound_sms_text _ _ _ _ Hreq (stop_text_adapts _ Hstop)).
  rewrite bool_decide_eq_true_2 by done. simpl.
  rewrite (new_sale_spec _ _ _ _ Hp).
  pose proof (find_sale_opt_out p p (inbound_logged p (JStr text) w)) as Hf.
  unfold inbound_logged in Hf. simpl in Hf.
  unfold find_sale in *. simpl in *. rewrite Hf, Hrow. simpl.
  apply find_some in Hrow as [_ Hph]. apply bool_decide_eq_true in Hph.
  unfold opt_out_row. rewrite bool_decide_eq_true_2 by done. done.
Qed.

(** X14: the ways the inbound handler raises.  If a field cannot be read or
    the sender is a truthy non-string, it raises before it writes anything.
    If the fields are read but the driver refuses the text (a JSON object, a
    list with one inside), it raises the driver's error and writes nothing.
    If the text is null, a boolean or a number, the InboundMessage is written
    with that text, then [AttributeError] is raised; no Sale is opted out
    and nothing is answered. *)
Theorem X14_inbound_sms_raises payload w :
  (∀ e, inbound_request payload = Raise e →
     inbound_sms payload w = (w, Raise e)
     ∧ (e = AttributeError ∨ e = TypeError))
  ∧ (∀ p body e, inbound_request payload = Ok (p, body) →
       adapt_error body = Some e →
       inbound_sms payload w = (w, Raise e))
  ∧ (∀ p body, inbound_request payload = Ok (p, body) →
       storable body = true → is_str body = false →
       inbound_sms payload w
       = (inbound_logged p body w, Raise AttributeError)
       ∧ sales (inbound_logged p body w) = sales w
       ∧ inbound_messages (inbound_logged p body w)
         = inbound_messages w ++ [InboundMessage (id <$> find_sale p w) p body]).
Proof.
  split_and!.
  - intros e He. split; [by rewrite inbound_sms_spec, He|].
    unfold inbound_request, rbind in He.
    repeat match type of He with
    | match py_get ?v ?k ?d with _ => _ end = _ =>
        let H := fresh in
        destruct (py_get v k d) eqn:H;
          [|destruct v; simpl in H; simplify_eq; by left]
    end.
    destruct (normalize_phone _) eqn:Hn; [done|]. simplify_eq.
    right. by apply (normalize_phone_raises _ _ Hn).
  - intros p body e Hreq He. rewrite inbound_sms_spec, Hreq. cbv beta iota.
    by rewrite He.
  - intros p body Hreq Hst Hs. rewrite inbound_sms_spec, Hreq. cbv beta iota.
    rewrite (storable_adapts _ Hst). simpl. by destruct body.
Qed.


(** ** The tables over a sequence of requests *)

Definition sale_key (r : sale) : Z * pystr := (id r, phone r).

(** The worlds a request can lead to. *)
Inductive exec_case (w w' : world) : Prop :=
  | case_unchanged : w' = w → exec_case w w'
  | case_upsert p body sid :
      is_opted_out (find_sale p w) = false →
      w' = log_post (sms_data p text_msg) (upserted body p w)
      ∨ w' = run_statement
               (InsertOutboundMessage (upsert_id p w) text_msg (str "telnyx") sid)
               (log_post (sms_data p text_msg) (upserted body p w)) →
      exec_case w w'
  | case_inbound p body :
      w' = inbound_logged p body w
      ∨ w' = run_statement (OptOutByPhone p) (inbound_logged p body w) →
      exec_case w w'.

Lemma exec_cases rq w : exec_case w (exec rq w).
Proof.
  destruct rq as [body reply|payload]; unfold exec; simpl.
  - destruct (request_phone body) as [p|e] eqn:Hp;
      [|rewrite (new_sale_raises _ _ _ _ Hp); by apply case_unchanged].
    destruct (is_opted_out (find_sale p w)) eqn:Hopt;
      [rewrite (new_sale_skipped _ _ _ _ Hp Hopt); by apply case_unchanged|].
    destruct (fields_error body) as [e|] eqn:He;
      [rewrite (new_sale_refused _ _ _ _ _ Hp Hopt He);
       by apply case_unchanged|].
    rewrite (new_sale_world _ _ _ _ Hp Hopt He). simpl.
    destruct (recorded_sid reply) as [sid|e]; simpl.
    + apply (case_upsert _ _ p body sid); [done|by right].
    + apply (case_upsert _ _ p body JNull); [done|by left].
  - rewrite inbound_sms_spec.
    destruct (inbound_request payload) as [[p body]|e];
      [|by apply case_unchanged].
    destruct (adapt_error body); [by apply case_unchanged|].
    simpl. destruct (is_stop body) as [[]|]; simpl;
      apply (case_inbound _ _ p body); auto.
Qed.

Lemma upserted_keys body p w :
  sale_key <$> sales w `prefix_of` sale_key <$> sales (upserted body p w).
Proof.
  unfold upserted. destruct (find_sale p w) as [row|]; simpl.
  - rewrite fmap_proj_ext; [done|]. intros r. unfold sale_key.
    by rewrite update_row_id, update_row_phone.
  - rewrite fmap_app. by apply prefix_app_r.
Qed.

Lemma upserted_next body p w :
  next_sale_id w ≤ next_sale_id (upserted body p w).
Proof. unfold upserted. destruct (find_sale p w); simpl; lia. Qed.

Lemma opt_out_keys p (l : list sale) :
  sale_key <$> (opt_out_row p <$> l) = sale_key <$> l.
Proof.
  apply fmap_proj_ext. intros r. unfold sale_key.
  by rewrite opt_out_row_id, opt_out_row_phone.
Qed.

(** Nothing is removed, and no identifier or phone is rewritten. *)
Record grows (w w' : world) : Prop := Grows {
  grows_keys : sale_key <$> sales w `prefix_of` sale_key <$> sales w';
  grows_outbound : outbound_messages w `prefix_of` outbound_messages w';
  grows_inbound : inbound_messages w `prefix_of` inbound_messages w';
  grows_posts : http_posts w `prefix_of` http_posts w';
  grows_next : next_sale_id w ≤ next_sale_id w'
}.

Lemma grows_refl w : grows w w.
Proof. split; (reflexivity || lia). Qed.

Lemma grows_trans w1 w2 w3 : grows w1 w2 → grows w2 w3 → grows w1 w3.
Proof. intros [] []. split; (etrans; eassumption) || lia. Qed.

Lemma exec_grows rq w : grows w (exec rq w).
Proof.
  destruct (exec_cases rq w) as [->|p body sid Hopt Hw|p body Hw].
  - apply grows_refl.
  - destruct (upserted_frame body p w) as (Ho & Hi & Hh).
    pose proof (upserted_keys body p w). pose proof (upserted_next body p w).
    destruct Hw as [-> | ->]; split; simpl; rewrite ?Ho, ?Hi, ?Hh;
      try done; by apply prefix_app_r.
  - destruct Hw as [-> | ->]; split; simpl; rewrite ?opt_out_keys;
      try done; try lia; by apply prefix_app_r.
Qed.

Lemma run_grows rqs w : grows w (run rqs w).
Proof.
  revert w. induction rqs as [|rq rqs IH]; intros w; [apply grows_refl|].
  rewrite run_cons. eapply grows_trans; [apply exec_grows|apply IH].
Qed.

(** X15: the handlers only ever append.  Through any sequence of requests
    the OutboundMessage and InboundMessage tables and the list of HTTP
    requests sent keep their old entries, in order and unchanged; the [sales]
    table keeps every row's identifier and phone, in order; the identifier
    sequence never goes back. *)
Theorem X15_append_only rqs w :
  let w' := run rqs w in
  outbound_messages w `prefix_of` outbound_messages w'
  ∧ inbound_messages w `prefix_of` inbound_messages w'
  ∧ http_posts w `prefix_of` http_posts w'
  ∧ sale_key <$> sales w `prefix_of` sale_key <$> sales w'
  ∧ next_sale_id w ≤ next_sale_id w'.
Proof. simpl. destruct (run_grows rqs w). done. Qed.

(** Every message points at a Sale. *)
Definition refs_ok (w : world) : Prop :=
  Forall (λ m, om_sale_id m ∈ id <$> sales w
               ∧ om_body m = text_msg ∧ om_provider m = str "telnyx")
         (outbound_messages w)
  ∧ Forall (λ m, ∀ i, im_sale_id m = Some i →
                      (i, im_from_phone m) ∈ sale_key <$> sales w)
           (inbound_messages w).

Lemma keys_mono w w' k :
  sale_key <$> sales w `prefix_of` sale_key <$> sales w' →
  k ∈ sale_key <$> sales w → k ∈ sale_key <$> sales w'.
Proof. intros [rest ->] Hk. apply elem_of_app. by left. Qed.

Lemma ids_mono w w' i :
  sale_key <$> sales w `prefix_of` sale_key <$> sales w' →
  i ∈ id <$> sales w → i ∈ id <$> sales w'.
Proof.
  intros Hpre [r [-> Hr]]%list_elem_of_fmap.
  assert (sale_key r ∈ sale_key <$> sales w') as [r' [Hk Hr']]%list_elem_of_fmap.
  { eapply keys_mono; [done|]. by apply list_elem_of_fmap_2. }
  apply list_elem_of_fmap. exists r'. split; [|done].
  unfold sale_key in Hk. congruence.
Qed.

Lemma refs_ok_mono w w' :
  sale_key <$> sales w `prefix_of` sale_key <$> sales w' →
  outbound_messages w' = outbound_messages w →
  inbound_messages w' = inbound_messages w →
  refs_ok w → refs_ok w'.
Proof.
  intros Hk Ho Hi [Hout Hin]. split; rewrite ?Ho, ?Hi.
  - eapply Forall_impl; [exact Hout|]. intros m (? & ? & ?).
    split_and!; [by eapply ids_mono|done..].
  - eapply Forall_impl; [exact Hin|]. intros m Hm i Hi'.
    eapply keys_mono; [done|]. by apply Hm.
Qed.

Lemma upsert_id_in body p w :
  is_opted_out (find_sale p w) = false →
  upsert_id p w ∈ id <$> sales (upserted body p w).
Proof.
  intros Hopt. pose proof (find_sale_upserted body p w Hopt) as Hf.
  apply find_sale_Some in Hf as [Hin _].
  apply list_elem_of_fmap. eexists. split; [|exact Hin]. done.
Qed.

Lemma exec_refs_ok rq w : refs_ok w → refs_ok (exec rq w).
Proof.
  intros Hok. destruct (exec_cases rq w) as [->|p body sid Hopt Hw|p body Hw].
  - done.
  - destruct (upserted_frame body p w) as (Ho & Hi & Hh).
    assert (refs_ok (log_post (sms_data p text_msg) (upserted body p w)))
      as Hok1.
    { eapply refs_ok_mono; [apply upserted_keys|by simpl..|done]. }
    destruct Hw as [-> | ->]; [done|].
    destruct Hok1 as [Hout Hin]. split; simpl in *; [|done].
    apply Forall_app. split; [done|]. constructor; [|constructor].
    simpl. split_and!; [by apply upsert_id_in|done..].
  - assert (refs_ok (inbound_logged p body w)) as Hok1.
    { destruct Hok as [Hout Hin]. unfold inbound_logged.
      split; simpl; [done|].
      apply Forall_app. split; [done|]. constructor; [|constructor].
      simpl. intros i Hi. destruct (find_sale p w) as [row|] eqn:Hf; [|done].
      simpl in Hi. simplify_eq. apply find_sale_Some in Hf as [Hrow <-].
      by apply (list_elem_of_fmap_2 sale_key). }
    destruct Hw as [-> | ->]; [done|].
    apply (refs_ok_mono (inbound_logged p body w));
      [simpl; by rewrite opt_out_keys|done..].
Qed.

(** X16: references stay valid.  If every OutboundMessage has the fixed
    confirmation text, provider ["telnyx"] and the identifier of a row of
    [sales], and every InboundMessage with a sale reference names a row that
    has the message's sender phone, then the same holds after any sequence
    of requests; it holds in the empty database. *)
Theorem X16_references_valid rqs w :
  refs_ok w → refs_ok (run rqs w) ∧ refs_ok empty_world.
Proof.
  intros Hok. split; [|split; constructor].
  revert w Hok. induction rqs as [|rq rqs IH]; intros w Hok; [done|].
  rewrite run_cons. by apply IH, exec_refs_ok.
Qed.


(** ** The admin pages and the session *)

(** The process environment read at import time. *)
Context (environ : gmap pystr pystr).

(** [os.getenv(key, default)] *)
Definition os_getenv (key dflt : pystr) : pystr := default dflt (environ !! key).

Definition ADMIN_PASSWORD : pystr :=
  os_getenv (str "ADMIN_PASSWORD") (str "AngelSecure!").

Definition ADMIN_USERNAME : pystr :=
  os_getenv (str "ADMIN_USERNAME") (str "admin").

(** A row of the listing query, [SELECT id, phone, office, plan_type,
    created_on FROM sales ORDER BY created_on DESC LIMIT 50]. *)
Record listed_sale : Type := ListedSale {
  ls_id : Z;
  ls_phone : pystr;
  ls_office : json;
  ls_plan_type : json
}.

(** What a handler hands to its template besides the request. *)
Inductive template_data : Type :=
  | NoData
  | SalesRows (rows : list listed_sale)
  | Lead (row : sale).

Inductive page : Type :=
  | TemplateResponse (name : pystr) (data : template_data)
  | RedirectResponse (url : pystr) (status : Z)
  | HTMLResponse (content : pystr) (status : Z)
  | JSONResponse (status : Z).

(** [request.session.get("logged_in")], as a truth value. *)
Definition logged_in (session : gmap pystr json) : bool :=
  py_truthy (default JNull (session !! str "logged_in")).

Definition login_page : page := TemplateResponse (str "login.html") NoData.

(** [Form(...)], a required form field.  FastAPI reads the field from the
    submitted form before it calls the handler, and takes a field that is
    absent, or present with the empty string, for missing. *)
Definition Form (form : gmap pystr pystr) (name : pystr) : option pystr :=
  match form !! name with
  | Some v => if bool_decide (v = []) then None else Some v
  | None => None
  end.

(** The answer FastAPI gives for a request that fails validation; its body,
    the list of the fields at fault, is left out. *)
Definition validation_error : page := JSONResponse 422.

Definition login (form : gmap pystr pystr) (session : gmap pystr json)
    : gmap pystr json * page :=
  match Form form (str "username"), Form form (str "password") with
  | Some username, Some password =>
      if bool_decide (username = ADMIN_USERNAME)
         && bool_decide (password = ADMIN_PASSWORD)
      then (<[str "logged_in" := JBool true]> session,
            RedirectResponse (str "/admin") 303)
      else (session, HTMLResponse (str "<h3>Invalid credentials</h3>") 401)
  | _, _ => (session, validation_error)
  end.

(** [fetch_all] for the listing query.  The listing is ordered by
    [created_on], a column the tables of this model do not carry: the rows
    the store returns are an input of the handler. *)
Definition fetch_all (listing : list listed_sale) : M (list listed_sale) :=
  ret listing.

Definition admin_home (session : gmap pystr json)
    (listing : list listed_sale) : M page :=
  if negb (logged_in session) then ret (RedirectResponse (str "/") 303)
  else
    let! sales_rows := fetch_all listing in
    ret (TemplateResponse (str "admin_home.html") (SalesRows sales_rows)).

(** [SELECT * FROM sales WHERE id=%s] *)
Definition find_sale_by_id (i : Z) (w : world) : option sale :=
  List.find (λ r, id r =? i) (sales w).

Definition fetch_one_by_id (i : Z) : M (option sale) :=
  let! w := get_world in ret (find_sale_by_id i w).

Definition admin_lead (session : gmap pystr json) (sale_id : Z) : M page :=
  if negb (logged_in session) then ret (RedirectResponse (str "/") 303)
  else
    let! sale := fetch_one_by_id sale_id in
    match sale with
    | None => ret (HTMLResponse (str "<h3>Sale not found</h3>") 404)
    | Some row => ret (TemplateResponse (str "admin_lead.html") (Lead row))
    end.

(** [request.session.clear()] *)
Definition logout (session : gmap pystr json) : gmap pystr json * page :=
  (∅, RedirectResponse (str "/") 303).

Definition to_login : page := RedirectResponse (str "/") 303.

Lemma admin_lead_closed session sale_id w :
  logged_in session = false → admin_lead session sale_id w = (w, Ok to_login).
Proof. intros H. unfold admin_lead. by rewrite H. Qed.

Lemma admin_lead_open session sale_id w :
  logged_in session = true →
  admin_lead session sale_id w
  = (w, Ok match find_sale_by_id sale_id w with
           | None => HTMLResponse (str "<h3>Sale not found</h3>") 404
           | Some row => TemplateResponse (str "admin_lead.html") (Lead row)
           end).
Proof.
  intros H. unfold admin_lead, bind, fetch_one_by_id, get_world, ret.
  rewrite H. simpl. by destruct (find_sale_by_id sale_id w).
Qed.

Lemma Form_Some form name v :
  Form form name = Some v ↔ form !! name = Some v ∧ v ≠ [].
Proof.
  unfold Form. destruct (form !! name) as [v'|]; [|by split; [|intros []]].
  case_bool_decide as Hv; split.
  - done.
  - by intros [[= ->] Hne].
  - by intros [= ->].
  - by intros [[= ->] _].
Qed.

(** The credentials are accepted: both fields are submitted, non-empty and
    equal to the configured ones. *)
Definition accepted (form : gmap pystr pystr) : Prop :=
  Form form (str "username") = Some ADMIN_USERNAME
  ∧ Form form (str "password") = Some ADMIN_PASSWORD.

Lemma login_accepted form session :
  accepted form →
  login form session
  = (<[str "logged_in" := JBool true]> session,
     RedirectResponse (str "/admin") 303).
Proof.
  intros [Hu Hp]. unfold login. rewrite Hu, Hp.
  by rewrite !bool_decide_eq_true_2.
Qed.

Lemma login_not_accepted form session :
  ¬ accepted form → (login form session).1 = session.
Proof.
  intros Hno. unfold login.
  destruct (Form form (str "username")) as [u|] eqn:Hu; [|done].
  destruct (Form form (str "password")) as [p|] eqn:Hp; [|done].
  destruct (_ && _) eqn:Hb; [|done].
  apply andb_true_iff in Hb as [->%bool_decide_eq_true ->%bool_decide_eq_true].
  by destruct Hno.
Qed.

(** X17: the session gate follows the credentials.  From a session that is
    not logged in, the detail page answers something other than the redirect
    to the login form after [login] exactly when both form fields are
    submitted, non-empty and equal to the configured user name and password.
    A wrong pair of non-empty fields is answered 401, a form with a field
    missing or empty is answered 422 without reaching the comparison; both
    leave the session as it was.  After [logout] every session, logged in or
    not, is redirected again. *)
Theorem X17_session_gate form session sale_id w :
  logged_in session = false →
  let s1 := (login form session).1 in
  let s2 := (logout s1).1 in
  (Form form (str "username") = Some ADMIN_USERNAME
   ∧ Form form (str "password") = Some ADMIN_PASSWORD
   ↔ (admin_lead s1 sale_id w).2 ≠ Ok to_login)
  ∧ (∀ username password,
       Form form (str "username") = Some username →
       Form form (str "password") = Some password →
       ¬ (username = ADMIN_USERNAME ∧ password = ADMIN_PASSWORD) →
       login form session
       = (session, HTMLResponse (str "<h3>Invalid credentials</h3>") 401))
  ∧ (Form form (str "username") = None ∨ Form form (str "password") = None →
     login form session = (session, JSONResponse 422))
  ∧ (∀ name v, Form form name = Some v ↔ form !! name = Some v ∧ v ≠ [])
  ∧ (logout s1).2 = to_login
  ∧ admin_lead s2 sale_id w = (w, Ok to_login).
Proof.
  intros Hs s1 s2. split_and!.
  - fold (accepted form). split.
    + intros Hacc. unfold s1. rewrite (login_accepted _ _ Hacc). simpl.
      rewrite admin_lead_open by (unfold logged_in; by rewrite lookup_insert_eq).
      simpl. by destruct (find_sale_by_id sale_id w).
    + intros Hopen. destruct (decide (accepted form)) as [|Hno]; [done|].
      destruct Hopen. unfold s1. rewrite (login_not_accepted _ _ Hno).
      by rewrite admin_lead_closed.
  - intros username password Hu Hp Hno. unfold login. rewrite Hu, Hp.
    destruct (_ && _) eqn:Hb; [|done]. destruct Hno.
    by apply andb_true_iff in Hb
      as [->%bool_decide_eq_true ->%bool_decide_eq_true].
  - intros [Hu|Hp]; unfold login.
    + by rewrite Hu.
    + rewrite Hp. by destruct (Form form (str "username")).
  - apply Form_Some.
  - done.
  - by apply admin_lead_closed.
Qed.

(** X18: the detail page only reads, and only for a session that is logged
    in.  Whatever the session and the identifier, the handler leaves the
    world as it is; when the session has no [logged_in] key, or a falsy value
    under it, the answer is the redirect to the login form, whether or not
    the identifier is that of a Sale. *)
Theorem X18_admin_lead_read_only_and_gated session sale_id w :
  (admin_lead session sale_id w).1 = w
  ∧ (session !! str "logged_in" = None
     ∨ (∃ v, session !! str "logged_in" = Some v ∧ py_truthy v = false) →
     admin_lead session sale_id w = (w, Ok to_login)).
Proof.
  split.
  - destruct (logged_in session) eqn:H;
      [by rewrite admin_lead_open|by rewrite admin_lead_closed].
  - intros H. apply admin_lead_closed. unfold logged_in.
    destruct H as [->|(v & -> & Hv)]; done.
Qed.

(** The listing page is gated the same way and only reads. *)
Lemma admin_home_gated session listing w :
  (admin_home session listing w).1 = w
  ∧ (logged_in session = false →
     admin_home session listing w = (w, Ok to_login))
  ∧ (logged_in session = true →
     admin_home session listing w
     = (w, Ok (TemplateResponse (str "admin_home.html") (SalesRows listing)))).
Proof.
  unfold admin_home. destruct (logged_in session); split_and!; done.
Qed.

Lemma find_sale_by_id_Some i w row :
  find_sale_by_id i w = Some row → row ∈ sales w ∧ id row = i.
Proof.
  unfold find_sale_by_id. intros H. apply find_some in H as [Hin Hi].
  split; [by apply list_elem_of_In|by apply Z.eqb_eq].
Qed.

Lemma find_sale_by_id_None i w :
  find_sale_by_id i w = None ↔ i ∉ id <$> sales w.
Proof.
  unfold find_sale_by_id. split.
  - intros H [row [-> Hin]]%list_elem_of_fmap.
    apply list_elem_of_In in Hin.
    pose proof (find_none _ _ H _ Hin) as Hf. simpl in Hf.
    by rewrite Z.eqb_refl in Hf.
  - intros Hni. destruct (List.find _ _) as [row|] eqn:Hf; [|done].
    apply find_some in Hf as [Hin Hi]. destruct Hni.
    apply Z.eqb_eq in Hi as <-.
    by apply list_elem_of_fmap_2, list_elem_of_In.
Qed.

Lemma find_sale_by_id_unique w row :
  wf w → row ∈ sales w → find_sale_by_id (id row) w = Some row.
Proof.
  intros Hw Hrow. destruct (find_sale_by_id (id row) w) as [r|] eqn:Hf.
  - apply find_sale_by_id_Some in Hf as [Hr Hi]. f_equal.
    eapply (NoDup_fmap_eq id); eauto using wf_ids.
  - apply find_sale_by_id_None in Hf. destruct Hf.
    by apply list_elem_of_fmap_2.
Qed.

(** X19: the detail page of a logged-in session answers 404 exactly for an
    identifier no row has; otherwise its template gets a row of the table
    with that identifier.  Under the table invariant an identifier at or
    above the sequence is never found. *)
Theorem X19_admin_lead_lookup session sale_id w :
  logged_in session = true →
  ((admin_lead session sale_id w).2
   = Ok (HTMLResponse (str "<h3>Sale not found</h3>") 404)
   ↔ sale_id ∉ id <$> sales w)
  ∧ (sale_id ∈ id <$> sales w →
     ∃ row, (admin_lead session sale_id w).2
            = Ok (TemplateResponse (str "admin_lead.html") (Lead row))
            ∧ row ∈ sales w ∧ id row = sale_id)
  ∧ (wf w → next_sale_id w ≤ sale_id →
     admin_lead session sale_id w
     = (w, Ok (HTMLResponse (str "<h3>Sale not found</h3>") 404))).
Proof.
  intros Hs. rewrite admin_lead_open by done. simpl. split_and!.
  - rewrite <- find_sale_by_id_None.
    destruct (find_sale_by_id sale_id w); split; done.
  - intros Hin. destruct (find_sale_by_id sale_id w) as [row|] eqn:Hf.
    + exists row. split; [done|]. by apply find_sale_by_id_Some.
    + by apply find_sale_by_id_None in Hf.
  - intros Hw Hge.
    assert (find_sale_by_id sale_id w = None) as ->; [|done].
    apply find_sale_by_id_None. intros [row [-> Hrow]]%list_elem_of_fmap.
    pose proof (wf_next _ Hw) as Hn. rewrite Forall_forall in Hn.
    specialize (Hn _ Hrow). simpl in Hn. lia.
Qed.

Lemma sent_response_sale_id i p sid :
  field (sent_response i p sid) "sale_id" = JInt i.
Proof. reflexivity. Qed.

Lemma sent_response_sent_to i p sid :
  field (sent_response i p sid) "sent_to" = JStr p.
Proof. reflexivity. Qed.

(** X20: what was submitted is what the admin sees.  Under the table
    invariant, if a new-sale request is answered with [sale_id] [i], the
    detail page for [i] shows a row with identifier [i], the phone the
    answer gives as [sent_to], the six submitted fields, and [opted_out]
    unset. *)
Theorem X20_new_sale_then_admin_lead body reply w session resp i :
  wf w →
  logged_in session = true →
  (new_sale body reply w).2 = Ok resp →
  field resp "sale_id" = JInt i →
  let w' := (new_sale body reply w).1 in
  ∃ p, field resp "sent_to" = JStr p
       ∧ admin_lead session i w'
         = (w', Ok (TemplateResponse (str "admin_lead.html")
                      (Lead (row_from body i p false)))).
Proof.
  intros Hw Hs Hresp Hi w'.
  assert (wf w') as Hw' by apply (wf_exec (NewSale body reply) w Hw).
  unfold w' in *. clear w'.
  destruct (request_phone body) as [p|e] eqn:Hp;
    [|by rewrite (new_sale_raises _ _ _ _ Hp) in Hresp].
  destruct (is_opted_out (find_sale p w)) eqn:Hopt.
  { rewrite (new_sale_skipped _ _ _ _ Hp Hopt) in Hresp. simpl in Hresp.
    by simplify_eq. }
  destruct (fields_error body) as [e|] eqn:He;
    [by rewrite (new_sale_refused _ _ _ _ _ Hp Hopt He) in Hresp|].
  pose proof (find_sale_upserted body p w Hopt) as Hf.
  apply find_sale_Some in Hf as [Hrow _].
  rewrite (new_sale_world _ _ _ _ Hp Hopt He) in *. simpl in *.
  destruct (recorded_sid reply) as [sid|]; [|done].
  simpl in *. simplify_eq. rewrite sent_response_sale_id in Hi.
  simplify_eq. exists p. split; [apply sent_response_sent_to|].
  rewrite admin_lead_open by done.
  pose proof (find_sale_by_id_unique _ _ Hw' Hrow) as Hfind.
  simpl in Hfind. by rewrite Hfind.
Qed.

End Main.

(** * Concrete instances *)

(** A character table that knows ASCII only. *)
Definition ascii_only_decimal (c : N) : bool := (c <? 128)%N && ascii_decimal c.
Definition ascii_only_space (c : N) : bool := (c <? 128)%N && ascii_space c.
Definition ascii_only_upper (c : N) : list N :=
  if (c <? 128)%N then [ascii_upper c] else [c].

Lemma ascii_only_decimal_ok c : (c < 128)%N → ascii_only_decimal c = ascii_decimal c.
Proof. intros H. unfold ascii_only_decimal. apply N.ltb_lt in H. by rewrite H. Qed.

Lemma ascii_only_space_ok c : (c < 128)%N → ascii_only_space c = ascii_space c.
Proof. intros H. unfold ascii_only_space. apply N.ltb_lt in H. by rewrite H. Qed.

Lemma ascii_only_upper_ok c : (c < 128)%N → ascii_only_upper c = [ascii_upper c].
Proof. intros H. unfold ascii_only_upper. apply N.ltb_lt in H. by rewrite H. Qed.

Definition ascii_only : unicode_data :=
  UnicodeData ascii_only_decimal ascii_only_space ascii_only_upper
              ascii_only_decimal_ok ascii_only_space_ok ascii_only_upper_ok.

Definition jane : json :=
  obj [("phone", jstr "5551234567"); ("saleId", jstr "S1"); ("agent", jstr "Jane");
       ("office", jstr "NY"); ("source", jstr "web"); ("healthId", jstr "H1");
       ("planType", jstr "Gold")]%string.

Definition sent_ok : http_reply :=
  Reply (Response 200 (Ok (obj [("data", obj [("id", jstr "m-1")])]%string))).

Definition stop_from (number : string) : json :=
  obj [("data", obj [("payload",
         obj [("from", obj [("phone_number", jstr number)]); ("text", jstr " Stop ")])])]%string.

(** The world after Jane's sale was recorded and she replied STOP. *)
Definition jane_opted_out : world :=
  run ascii_only None None
      [NewSale jane sent_ok; InboundSms (stop_from "+1 (555) 123-4567")] empty_world.

Lemma C3_witness :
  new_sale ascii_only None None jane sent_ok jane_opted_out
  = (jane_opted_out, Ok skipped_response).
Proof.
  eapply (C3_opted_out_short_circuit ascii_only None None jane sent_ok
            jane_opted_out (str "+15551234567")
            (opt_out_row (str "+15551234567")
               (row_from jane 1 (str "+15551234567") false))).
  - vm_compute. reflexivity.
  - vm_compute. apply list_elem_of_here.
  - vm_compute. reflexivity.
  - vm_compute. reflexivity.
  - right. vm_compute. reflexivity.
Defined.


(** ** Scenarios *)

Definition jane_phone : pystr := str "+15551234567".

(** A second submission for Jane's number, by another agent. *)
Definition jane_again : json :=
  obj [("phone", jstr "1 (555) 123-4567"); ("saleId", jstr "S2");
       ("agent", jstr "John"); ("office", jstr "LA")]%string.

(** An inbound text that is not an opt-out. *)
Definition hello_from (number : string) : json :=
  obj [("data", obj [("payload",
         obj [("from", obj [("phone_number", jstr number)]);
              ("text", jstr "hello")])])]%string.

(** An opt-out that names no sender. *)
Definition stop_without_sender : json :=
  obj [("data", obj [("payload", obj [("text", jstr "STOP")])])]%string.

(** A submission without a phone. *)
Definition no_phone : json := obj [("agent", jstr "Jane")]%string.


(** A 300 answer that carries a JSON body. *)
Definition multiple_choices : http_reply :=
  Reply (Response 300 (Ok (obj [("data", obj [("id", jstr "m-1")])]%string))).

(** The world after Jane's sale was recorded. *)
Definition jane_recorded : world :=
  run ascii_only None None [NewSale jane sent_ok] empty_world.

Definition jane_row : sale := row_from jane 1 jane_phone false.


(** A 200 answer on whose body [response.json()] runs out of stack. *)
Definition too_deep : http_reply := Reply (Response 200 (Raise RecursionError)).

(** The scenario of the specification: the first sale on an empty database
    gets identifier 1 and the canonical phone, one message is recorded and
    the answer carries the provider's identifier. *)
Example first_sale_scenario :
  ∃ w', new_sale ascii_only None None jane sent_ok empty_world
        = (w', Ok (sent_response 1 jane_phone (jstr "m-1")))
        ∧ sales w' = [row_from jane 1 jane_phone false]
        ∧ outbound_messages w'
          = [OutboundMessage 1 text_msg (str "telnyx") (jstr "m-1")]
        ∧ length (http_posts w') = 1%nat.
Proof. eexists. split_and!; vm_compute; reflexivity. Qed.


Lemma C4_witness :
  find_sale jane_phone jane_opted_out
  = Some (opt_out_row jane_phone (row_from jane 1 jane_phone false)).
Proof.
  apply (C4_inbound_stop ascii_only (stop_from "+1 (555) 123-4567")
           jane_phone (str " Stop ")
           (exec ascii_only None None (NewSale jane sent_ok) empty_world));
    vm_compute; reflexivity.
Defined.


Lemma C7_witness :
  opt_out_row jane_phone (row_from jane 1 jane_phone false)
  ∈ sales (run ascii_only None None
             [NewSale jane_again sent_ok; InboundSms (hello_from "5551234567")]
             jane_opted_out).
Proof.
  apply (C7_opt_out_permanent ascii_only None None jane_opted_out
           (opt_out_row jane_phone (row_from jane 1 jane_phone false))
           [NewSale jane_again sent_ok; InboundSms (hello_from "5551234567")]).
  - apply wf_reachable.
  - vm_compute. apply list_elem_of_here.
  - vm_compute. reflexivity.
Defined.

Lemma C8_witness :
  ∃ p text w',
    inbound_request ascii_only (hello_from "5551234567") = Ok (p, JStr text)
    ∧ inbound_sms ascii_only (hello_from "5551234567") empty_world
      = (w', Ok ok_response)
    ∧ inbound_messages w' = [InboundMessage None p (JStr text)]
    ∧ field ok_response "ok" = JBool true.
Proof.
  destruct (C8_one_inbound_row ascii_only (hello_from "5551234567") empty_world)
    as (p & text & w' & Hreq & Hr & Hi & Hok & _).
  - vm_compute. reflexivity.
  - vm_compute. reflexivity.
  - exists p, text, w'. split_and!; [exact Hreq|exact Hr|exact Hi|exact Hok].
Defined.

Lemma C9_witness :
  (inbound_sms ascii_only stop_without_sender empty_world).2 = Ok ok_response.
Proof.
  apply (C9_absent_keys_tolerated ascii_only stop_without_sender empty_world);
    vm_compute; reflexivity.
Defined.


(** ** Where the specification and the code differ *)



(** C6 as stated fails twice.  A 300 answer is not 2xx, yet
    [raise_for_status] lets it pass and the client returns its body, whose
    identifier is not ["FAILED"].  And an error of [response.json()] that is
    not a [RequestException] passes the [except] clause and reaches the
    caller, which raises in turn after the Sale was written. *)
Lemma C6_counterexample :
  ¬ (200 ≤ 300 < 300)
  ∧ (send_sms_via_telnyx None None jane_phone text_msg multiple_choices
       empty_world).2
    = Ok (obj [("data", obj [("id", jstr "m-1")])]%string)
  ∧ provider_sid_of (obj [("data", obj [("id", jstr "m-1")])]%string)
    = Ok (jstr "m-1")
  ∧ provider_sid_of failed_response = Ok (jstr "FAILED")
  ∧ (send_sms_via_telnyx None None jane_phone text_msg too_deep
       empty_world).2
    = Raise RecursionError
  ∧ (new_sale ascii_only None None jane too_deep empty_world).2
    = Raise RecursionError.
Proof. split; [lia|]. split_and!; vm_compute; reflexivity. Qed.

(** C8 as stated fails: on [{"data": {"payload": {"from": null}}}] the
    handler writes no InboundMessage row and raises instead of answering. *)
Lemma C8_counterexample :
  inbound_sms ascii_only from_null empty_world
  = (empty_world, Raise AttributeError)
  ∧ inbound_messages (inbound_sms ascii_only from_null empty_world).1 = [].
Proof. split; vm_compute; reflexivity. Qed.

(** The shape C9 names: [data], [data.payload] and [from] are each absent or
    an object. *)
Definition absent_or_objects (payload : json) : bool :=
  match payload with
  | JObj m =>
      match m !! str "data" with
      | None => true
      | Some (JObj d) =>
          match d !! str "payload" with
          | None => true
          | Some (JObj data) =>
              match data !! str "from" with
              | None | Some (JObj _) => true
              | Some _ => false
              end
          | Some _ => false
          end
      | Some _ => false
      end
  | _ => false
  end.

(** C9 as stated fails: [{"data": {"payload": {"text": null}}}] has the three
    keys absent or objects, and the handler raises on [None.strip()], after
    it has logged the message. *)
Lemma C9_counterexample :
  absent_or_objects text_null = true
  ∧ (inbound_sms ascii_only text_null empty_world).2 = Raise AttributeError
  ∧ inbound_messages (inbound_sms ascii_only text_null empty_world).1
    = [InboundMessage None (str "+") JNull].
Proof. split_and!; vm_compute; reflexivity. Qed.


(** ** Scenarios for the further properties *)

(** A submission whose phone is a JSON number. *)
Definition numeric_phone : json :=
  obj [("phone", JInt 5551234567); ("agent", jstr "Jane")]%string.

(** A 200 answer whose body is a JSON array. *)
Definition array_answer : http_reply := Reply (Response 200 (Ok (JArr []))).

(** A session after a successful login. *)
Definition admin_session : gmap pystr json :=
  {[ str "logged_in" := JBool true ]}.

Lemma X2_witness :
  normalize_phone ascii_only (JInt 5551234567) = Raise TypeError.
Proof.
  apply (proj1 (X2_normalize_phone_type_error ascii_only (JInt 5551234567))).
  split; reflexivity.
Defined.

Lemma X3_witness :
  normalize_phone ascii_only (jstr "1 (555) 123-4567")
  = normalize_phone ascii_only (jstr "555-123-4567").
Proof.
  apply (proj2 (X3_normalize_phone_digits_only ascii_only
                  (str "555-123-4567") (str "1 (555) 123-4567")));
    vm_compute; reflexivity.
Defined.

Lemma X5_witness :
  new_sale ascii_only None None numeric_phone sent_ok jane_recorded
  = (jane_recorded, Raise TypeError).
Proof.
  eapply (proj2 (X5_new_sale_rejects_before_writing ascii_only None None
                   numeric_phone sent_ok jane_recorded)
            _ (JInt 5551234567));
    [reflexivity|vm_compute; reflexivity..].
Defined.

Lemma X6_witness :
  ∃ i p sid,
    sent_response 1 jane_phone (jstr "m-1") = sent_response i p sid
    ∧ find_sale p (new_sale ascii_only None None jane sent_ok empty_world).1
      = Some (row_from jane i p false).
Proof.
  destruct (X6_new_sale_report_agrees ascii_only None None jane sent_ok
              empty_world (sent_response 1 jane_phone (jstr "m-1")))
    as (i & p & sid & Hr & _ & Hf & _).
  - vm_compute. reflexivity.
  - vm_compute. reflexivity.
  - exists i, p, sid. split; [exact Hr|exact Hf].
Defined.

Lemma X7_witness :
  ∃ w',
    new_sale ascii_only None None jane array_answer empty_world
    = (w', Raise AttributeError)
    ∧ find_sale jane_phone w' = Some jane_row
    ∧ length (http_posts w') = 1%nat
    ∧ outbound_messages w' = [].
Proof.
  destruct (X7_new_sale_unreadable_answer ascii_only None None jane
              array_answer empty_world jane_phone (JArr []) AttributeError)
    as (w' & Hr & Hf & Hp & Ho).
  - vm_compute. reflexivity.
  - vm_compute. discriminate.
  - vm_compute. reflexivity.
  - vm_compute. reflexivity.
  - exists w'. split_and!; [exact Hr|exact Hf|by rewrite Hp|exact Ho].
Defined.

Lemma X8_witness :
  ∃ i w',
    new_sale ascii_only None None jane (Reply (Response 200 (Ok (JObj ∅))))
      empty_world
    = (w', Ok (sent_response i jane_phone (jstr "FAILED"))).
Proof.
  destruct (X8_missing_provider_id_is_failed ascii_only None None jane 200 ∅
              empty_world jane_phone)
    as (i & w' & Hr & _).
  - vm_compute. reflexivity.
  - vm_compute. discriminate.
  - lia.
  - by left.
  - exists i, w'. exact Hr.
Defined.

Lemma X9_witness :
  jane_row ∈ sales (new_sale ascii_only None None no_phone sent_ok
                      jane_recorded).1.
Proof.
  apply (X9_new_sale_other_rows_untouched ascii_only None None no_phone
           sent_ok jane_recorded jane_row).
  - apply wf_reachable.
  - vm_compute. apply list_elem_of_here.
  - vm_compute. discriminate.
Defined.

(** An inbound text that starts with the keyword. *)
Definition stop_please : json :=
  obj [("data", obj [("payload",
         obj [("from", obj [("phone_number", jstr "5551234567")]);
              ("text", jstr "STOP please")])])]%string.

Lemma X11_witness :
  sales (inbound_sms ascii_only stop_please jane_recorded).1
  = sales jane_recorded
  ∧ inbound_sms ascii_only stop_please jane_recorded
    = (inbound_logged jane_phone (jstr "STOP please") jane_recorded,
       Ok ok_response).
Proof.
  destruct (X11_inbound_sms_other_text ascii_only stop_please jane_phone
              (str "STOP please") jane_recorded) as (Hs & Hlog).
  - vm_compute. reflexivity.
  - vm_compute. discriminate.
  - split; [exact Hs|]. destruct Hlog as (Hr & _); [vm_compute; reflexivity|].
    exact Hr.
Defined.

Lemma X12_witness :
  sales (inbound_sms ascii_only (stop_from "5551234567") jane_opted_out).1
  = sales jane_opted_out.
Proof.
  apply (X12_inbound_stop_idempotent ascii_only (stop_from "5551234567")
           jane_phone (str " Stop ") jane_recorded);
    vm_compute; reflexivity.
Defined.

Lemma X13_witness :
  new_sale ascii_only None None jane_again sent_ok
    (inbound_sms ascii_only (stop_from "5551234567") jane_recorded).1
  = ((inbound_sms ascii_only (stop_from "5551234567") jane_recorded).1,
     Ok skipped_response).
Proof.
  apply (X13_stop_then_new_sale_skipped ascii_only None None
           (stop_from "5551234567") jane_phone (str " Stop ") jane_again
           sent_ok jane_recorded jane_row);
    vm_compute; reflexivity.
Defined.

Lemma X14_witness :
  inbound_sms ascii_only text_null empty_world
  = (inbound_logged (str "+") JNull empty_world, Raise AttributeError).
Proof.
  destruct (X14_inbound_sms_raises ascii_only text_null empty_world)
    as (_ & _ & Hlogged).
  destruct (Hlogged (str "+") JNull) as (Hr & _);
    [vm_compute; reflexivity..|]. exact Hr.
Defined.

Lemma X16_witness :
  refs_ok
    (run ascii_only None None
       [NewSale jane sent_ok; InboundSms (stop_from "5551234567");
        NewSale no_phone NoResponse; InboundSms text_null] empty_world).
Proof.
  apply (X16_references_valid ascii_only None None
           [NewSale jane sent_ok; InboundSms (stop_from "5551234567");
            NewSale no_phone NoResponse; InboundSms text_null] empty_world).
  split; constructor.
Defined.

(** The login form filled in with the built-in credentials. *)
Definition default_credentials : gmap pystr pystr :=
  {[ str "username" := str "admin"; str "password" := str "AngelSecure!" ]}.

(** With no setting in the environment the built-in credentials open the
    admin pages. *)
Lemma X17_witness :
  (admin_lead (login ∅ default_credentials ∅).1 1 jane_recorded).2
  ≠ Ok to_login.
Proof.
  apply (X17_session_gate ∅ default_credentials ∅ 1 jane_recorded);
    [reflexivity|].
  split; vm_compute; reflexivity.
Defined.

Lemma X19_witness :
  admin_lead admin_session 2 jane_recorded
  = (jane_recorded, Ok (HTMLResponse (str "<h3>Sale not found</h3>") 404)).
Proof.
  apply (X19_admin_lead_lookup admin_session 2 jane_recorded).
  - reflexivity.
  - apply wf_reachable.
  - vm_compute. discriminate.
Defined.

Lemma X20_witness :
  ∃ p, field (sent_response 1 jane_phone (jstr "m-1")) "sent_to" = JStr p
       ∧ admin_lead admin_session 1 jane_recorded
         = (jane_recorded,
            Ok (TemplateResponse (str "admin_lead.html")
                  (Lead (row_from jane 1 p false)))).
Proof.
  apply (X20_new_sale_then_admin_lead ascii_only None None jane sent_ok
           empty_world admin_session
           (sent_response 1 jane_phone (jstr "m-1")) 1).
  - apply wf_empty.
  - reflexivity.
  - vm_compute. reflexivity.
  - reflexivity.
Defined.

Lemma X18_witness :
  admin_lead (<[str "logged_in" := JBool false]> ∅) 1 jane_recorded
  = (jane_recorded, Ok to_login).
Proof.
  apply (X18_admin_lead_read_only_and_gated
           (<[str "logged_in" := JBool false]> ∅) 1 jane_recorded).
  right. exists (JBool false). split; reflexivity.
Defined.
